(** * go-workplace-webhook: the verification and dispatch pipeline

    A shallow embedding of the two server sources of the repository,

      - [webhook/server.go]: one callback path ["/"], handlers keyed by
        object (module [Root] below);
      - the pattern-keyed variant of the same file: the handshake answers on
        ["/webhook"], handlers are keyed by URL pattern and then by object
        (module [Patterns] below);

    together with the pieces of the Go standard library that
    [verifySignature] runs: [strings.Split], [hex.EncodeToString],
    [crypto/sha1] and [crypto/hmac]. *)

From Stdlib Require Import ZArith String Ascii List Lia.
From Stdlib.Strings Require Import Byte.
From stdpp Require Import gmap strings.
Import ListNotations.

Local Open Scope string_scope.
Local Open Scope list_scope.

(** ** Go values *)

(** A Go [string] is a sequence of bytes: [String.string].  A [[]byte] is a
    [list byte].  The two conversions [[]byte(s)] and [string(b)]: *)
Definition bytes_of_string (s : string) : list byte := list_byte_of_string s.
Definition string_of_bytes (b : list byte) : string := string_of_list_byte b.

(** The value of a byte as an integer, and back (truncating, as a Go
    conversion [byte(x)] does). *)
Definition byte_val (b : byte) : Z := Z.of_N (Byte.to_N b).
Definition byte_of_val (z : Z) : byte :=
  match Byte.of_N (Z.to_N (z mod 256)) with
  | Some b => b
  | None => x00
  end.

(** Go's [error] interface value: [None] is [nil], [Some msg] an error
    carrying the text [msg]. *)
Definition error : Type := option string.

Module errors.
(** [errors.New(text)] *)
Definition New (text : string) : error := Some text.
End errors.

(** ** [strings.Split] *)
Module gostrings.
(** [strings.Split(s, sep)] for a separator [sep] of one byte, the only
    way the source calls it ([strings.Split(sig, "=")]): the substrings
    between the occurrences of the separator, one more than there are
    separators; splitting the empty string gives a slice of one element,
    the empty string. *)
Fixpoint Split (s : string) (sep : ascii) : list string :=
  match s with
  | EmptyString => [EmptyString]
  | String c rest =>
      if Ascii.eqb c sep then EmptyString :: Split rest sep
      else match Split rest sep with
           | [] => [String c EmptyString]
           | hd :: tl => String c hd :: tl
           end
  end.
End gostrings.

(** ** [encoding/hex] *)
Module hex.
Definition hextable : string := "0123456789abcdef".

Definition digit (n : Z) : ascii :=
  match String.get (Z.to_nat n) hextable with
  | Some c => c
  | None => "0"%char
  end.

(** [hex.EncodeToString(src)]: two lower-case digits per byte,
    [hextable[v>>4]] then [hextable[v&0x0f]]. *)
Fixpoint EncodeToString (src : list byte) : string :=
  match src with
  | [] => EmptyString
  | v :: rest =>
      String (digit (Z.shiftr (byte_val v) 4))
        (String (digit (Z.land (byte_val v) 15)) (EncodeToString rest))
  end.
End hex.

(** ** [crypto/sha1]

    SHA-1 as [crypto/sha1] computes it (FIPS 180-4), on a [digest] that is
    written to byte by byte; checked against published digests below. *)
Module sha1.
Local Open Scope Z_scope.

Definition Size : nat := 20%nat.
Definition BlockSize : nat := 64%nat.

(** 32-bit words are [Z] with the wrap-around written out. *)
Definition u32 (x : Z) : Z := Z.land x 4294967295.
Definition add32 (x y : Z) : Z := u32 (x + y).
Definition not32 (x : Z) : Z := Z.lxor x 4294967295.
Definition RotateLeft32 (x k : Z) : Z :=
  u32 (Z.lor (Z.shiftl x k) (Z.shiftr x (32 - k))).

Definition K0 : Z := 1518500249.  (* 0x5A827999 *)
Definition K1 : Z := 1859775393.  (* 0x6ED9EBA1 *)
Definition K2 : Z := 2400959708.  (* 0x8F1BBCDC *)
Definition K3 : Z := 3395469782.  (* 0xCA62C1D6 *)

Definition init : list Z :=
  [1732584193; 4023233417; 2562383102; 271733878; 3285377520].

(** The running state of a hash: the five chaining words [h], the bytes
    [x] of the block being filled, and the number [len] of bytes written
    so far. *)
Record digest := mkDigest { h : list Z; x : list Z; len : Z }.

Definition New : digest := {| h := init; x := []; len := 0 |}.

(** big-endian words of a block *)
Fixpoint words (p : list Z) : list Z :=
  match p with
  | b0 :: b1 :: b2 :: b3 :: rest =>
      Z.lor (Z.lor (Z.lor (Z.shiftl b0 24) (Z.shiftl b1 16)) (Z.shiftl b2 8)) b3
      :: words rest
  | _ => []
  end.

(** The message schedule, most recent word first: [n] more words are
    added to [w], each [w[t] = rotl1 (w[t-3] ^ w[t-8] ^ w[t-14] ^ w[t-16])]. *)
Fixpoint expand (n : nat) (w : list Z) : list Z :=
  match n with
  | O => w
  | S n' =>
      let tmp := Z.lxor (Z.lxor (Z.lxor (nth 2%nat w 0) (nth 7%nat w 0)) (nth 13%nat w 0)) (nth 15%nat w 0) in
      expand n' (RotateLeft32 tmp 1 :: w)
  end.

Definition schedule (p : list Z) : list Z := rev (expand 64%nat (rev (words p))).

Definition round (i : Z) (w : Z) (s : Z * Z * Z * Z * Z) : Z * Z * Z * Z * Z :=
  let '(a, b, c, d, e) := s in
  let '(f, k) :=
    if i <? 20 then (Z.lor (Z.land b c) (Z.land (not32 b) d), K0)
    else if i <? 40 then (Z.lxor (Z.lxor b c) d, K1)
    else if i <? 60 then (Z.lor (Z.land (Z.lor b c) d) (Z.land b c), K2)
    else (Z.lxor (Z.lxor b c) d, K3) in
  let t := add32 (add32 (add32 (add32 (RotateLeft32 a 5) f) e) w) k in
  (t, a, RotateLeft32 b 30, c, d).

Fixpoint rounds (i : Z) (ws : list Z) (s : Z * Z * Z * Z * Z) : Z * Z * Z * Z * Z :=
  match ws with
  | [] => s
  | w :: ws' => rounds (i + 1) ws' (round i w s)
  end.

(** One 64-byte block folded into the chaining words. *)
Definition block (hs : list Z) (p : list Z) : list Z :=
  match hs with
  | [h0; h1; h2; h3; h4] =>
      let '(a, b, c, d, e) := rounds 0 (schedule p) (h0, h1, h2, h3, h4) in
      [add32 h0 a; add32 h1 b; add32 h2 c; add32 h3 d; add32 h4 e]
  | _ => hs
  end.

Definition WriteByte (d : digest) (b : Z) : digest :=
  let x' := x d ++ [b] in
  if Nat.eqb (length x') BlockSize
  then {| h := block (h d) x'; x := []; len := len d + 1 |}
  else {| h := h d; x := x'; len := len d + 1 |}.

Definition Write (d : digest) (p : list Z) : digest := fold_left WriteByte p d.

(** the big-endian bytes of a 64-bit value *)
Definition PutUint64 (v : Z) : list Z :=
  map (fun k => Z.land (Z.shiftr v (8 * k)) 255) [7; 6; 5; 4; 3; 2; 1; 0].

Definition PutUint32 (v : Z) : list Z :=
  map (fun k => Z.land (Z.shiftr v (8 * k)) 255) [3; 2; 1; 0].

(** [checkSum]: the padding [0x80 0 ... 0] up to 56 bytes modulo 64, the
    length in bits, and the five words out in big-endian order. *)
Definition checkSum (d : digest) : list Z :=
  let n := len d in
  let t := if n mod 64 <? 56 then 56 - n mod 64 else 64 + 56 - n mod 64 in
  let padlen := 128 :: repeat 0 (Z.to_nat t - 1)%nat in
  let d' := Write d (padlen ++ PutUint64 (Z.land (Z.shiftl n 3) 18446744073709551615)) in
  flat_map PutUint32 (h d').

(** [d.Sum(in)] appends the checksum to [in] and leaves [d] as it was. *)
Definition Sum (d : digest) (b : list Z) : list Z := b ++ checkSum d.
End sha1.

(** ** [crypto/hmac]

    HMAC (RFC 2104) over SHA-1, with the [New], [Write], [Sum] interface
    of [crypto/hmac]. *)
Module hmac.
Local Open Scope Z_scope.

Record t := mkHmac { opad : list Z; ipad : list Z; inner : sha1.digest }.

Definition pad (key : list Z) (c : Z) : list Z :=
  map (fun k => Z.lxor k c) (key ++ repeat 0 (sha1.BlockSize - length key)%nat).

(** [hmac.New(sha1.New, key)]: a key longer than the block is hashed
    first; the inner hash starts with [ipad] written. *)
Definition New (key : list byte) : t :=
  let key := map byte_val key in
  let key := if Nat.ltb sha1.BlockSize (length key)
             then sha1.Sum (sha1.Write sha1.New key) []
             else key in
  {| opad := pad key 92; ipad := pad key 54;
     inner := sha1.Write sha1.New (pad key 54) |}.

Definition Write (m : t) (p : list byte) : t :=
  {| opad := opad m; ipad := ipad m;
     inner := sha1.Write (inner m) (map byte_val p) |}.

(** [mac.Sum(in)]: the outer hash of [opad] and the inner checksum,
    appended to [in]. *)
Definition Sum (m : t) (b : list byte) : list byte :=
  let innerSum := sha1.Sum (inner m) [] in
  let outer := sha1.Write (sha1.Write sha1.New (opad m)) innerSum in
  b ++ map byte_of_val (sha1.Sum outer []).
End hmac.

(** ** [net/http]: the request and response boundary *)
Module http.
Definition MethodGet : string := "GET".
Definition MethodPost : string := "POST".

Definition StatusOK : nat := 200.
Definition StatusBadRequest : nat := 400.
Definition StatusForbidden : nat := 403.

(** [http.Header] and [url.Values] are both [map[string][]string]; their
    [Get] is the first value stored under the key, or the empty string. *)
Definition Get (m : gmap string (list string)) (key : string) : string :=
  match m !! key with
  | Some (v :: _) => v
  | _ => EmptyString
  end.

(** [r.Body], an [io.Reader]: the bytes not read yet, and the error the
    stream breaks with once they are read ([None]: it ends with EOF). *)
Record Reader := mkReader { pending : list byte; failure : error }.

(** [bytes.Buffer.ReadFrom(r.Body)] on an empty buffer: everything the
    reader still holds goes into the buffer, the reader is left drained,
    and the error is the reader's (EOF is not an error). *)
Definition ReadFrom (b : Reader) : list byte * error * Reader :=
  (pending b, failure b, {| pending := []; failure := failure b |}).

(** The fields of [*http.Request] the handlers use.  [Form] and [FormErr]
    are what [r.ParseForm()] leaves in [r.Form] and returns. *)
Record Request := mkRequest {
  Method : string;
  Header : gmap string (list string);
  Form : gmap string (list string);
  FormErr : error;
  Body : Reader
}.

Definition ParseForm (r : Request) : error := FormErr r.
Definition FormValue (r : Request) (key : string) : string := Get (Form r) key.

Definition withBody (r : Request) (b : Reader) : Request :=
  {| Method := Method r; Header := Header r; Form := Form r;
     FormErr := FormErr r; Body := b |}.

(** [http.ResponseWriter]: whether the status line went out, with which
    code, and the body bytes written. *)
Record ResponseWriter := mkResponseWriter {
  wroteHeader : bool;
  status : nat;
  written : list byte
}.

Definition NewResponseWriter : ResponseWriter :=
  {| wroteHeader := false; status := 0; written := [] |}.

(** [w.WriteHeader(code)]: a second call changes nothing. *)
Definition WriteHeader (w : ResponseWriter) (code : nat) : ResponseWriter :=
  if wroteHeader w then w
  else {| wroteHeader := true; status := code; written := written w |}.

(** [w.Write(data)]: sends [200] first when no status went out yet. *)
Definition Write (w : ResponseWriter) (data : list byte) : ResponseWriter :=
  let w := WriteHeader w StatusOK in
  {| wroteHeader := wroteHeader w; status := status w;
     written := written w ++ data |}.
End http.

(** ** [go-workplace/decode] *)
Module decode.
(** [type Object string] *)
Definition Object : Type := string.

(** [decode.RequestBody]: the discriminator and the entries of the event,
    which the server passes through unread. *)
Record RequestBody := mkRequestBody { object : Object; Entry : list string }.

(** [decode.RequestBody{}] *)
Definition zero : RequestBody := {| object := EmptyString; Entry := [] |}.
End decode.

(** ** [verifySignature]

    The function is the same text in both sources
    ([webhook/server.go] lines 112-131, the pattern-keyed variant lines
    133-152). *)
Definition verifySignature (sig secret : string) (payload : list byte) : error :=
  if decide (sig = EmptyString) then errors.New "error: signature is empty"
  else
    let elements := gostrings.Split sig "="%char in
    if decide (length elements < 2) then errors.New "errors: invalid signature"
    else
      let signatureHash := nth 1 elements EmptyString in
      let mac := hmac.New (bytes_of_string secret) in
      let mac := hmac.Write mac payload in
      let expectedHash := hex.EncodeToString (hmac.Sum mac []) in
      if decide (signatureHash <> expectedHash)
      then errors.New "error: signature hash do not match expected hash"
      else None.

(** ** What a handler run threads through *)

(** A registered callback [func(decode.RequestBody) error] (a non-nil
    function value): it may change the state [World] of the hosting
    application and returns an error or [nil]. *)
Definition Callback (World : Type) : Type :=
  decode.RequestBody -> World -> World * error.

(** [json.Unmarshal(data, &request)]: the decoder is a collaborator of the
    server; it returns the request as it leaves it and its error. *)
Definition Decoder : Type :=
  list byte -> decode.RequestBody -> decode.RequestBody * error.

(** The state of one request being handled: the response writer [resp], the
    request [req] (reading consumes its [Body]), the state [host] of the
    hosting application, and the envelopes the callbacks were invoked with
    so far ([invoked], a ghost log: the source keeps no such record). *)
Record Exchange (World : Type) := mkExchange {
  resp : http.ResponseWriter;
  req : http.Request;
  host : World;
  invoked : list decode.RequestBody
}.
Arguments mkExchange {World}.
Arguments resp {World}.
Arguments req {World}.
Arguments host {World}.
Arguments invoked {World}.

Section Steps.
Context {World : Type}.

(** [w.WriteHeader(code)] *)
Definition WriteHeader (st : Exchange World) (code : nat) : Exchange World :=
  {| resp := http.WriteHeader (resp st) code; req := req st; host := host st;
     invoked := invoked st |}.

(** [w.Write(data)] *)
Definition Write (st : Exchange World) (data : list byte) : Exchange World :=
  {| resp := http.Write (resp st) data; req := req st; host := host st;
     invoked := invoked st |}.

(** [bufBody.ReadFrom(r.Body)] into a new [bytes.Buffer]: the bytes read
    ([bufBody.Bytes()]), the error, and the exchange with the body
    consumed. *)
Definition ReadBody (st : Exchange World) : list byte * error * Exchange World :=
  let '(data, err, rest) := http.ReadFrom (http.Body (req st)) in
  (data, err,
   {| resp := resp st; req := http.withBody (req st) rest; host := host st;
      invoked := invoked st |}).

(** [handler(rb)] *)
Definition call (st : Exchange World) (handler : Callback World)
    (rb : decode.RequestBody) : error * Exchange World :=
  let '(host', err) := handler rb (host st) in
  (err, {| resp := resp st; req := req st; host := host';
           invoked := invoked st ++ [rb] |}).

(** The last step of both POST handlers ([webhook/server.go] lines
    101-105, the pattern-keyed variant lines 121-125):
    [if err := handler(rb); err != nil { w.WriteHeader(400) } else
    { w.WriteHeader(200) }]. *)
Definition answer (st : Exchange World) (handler : Callback World)
    (rb : decode.RequestBody) : Exchange World :=
  let '(err, st) := call st handler rb in
  match err with
  | Some _ => WriteHeader st http.StatusBadRequest
  | None => WriteHeader st http.StatusOK
  end.

(** The exchange [net/http] starts a handler with. *)
Definition arrive (rq : http.Request) (s0 : World) : Exchange World :=
  {| resp := http.NewResponseWriter; req := rq; host := s0; invoked := [] |}.
End Steps.

(** Reading [m[k]] of a Go map that may be [nil] ([None]): the value and
    whether it exists, as an option. *)
Definition index {K V : Type} `{Countable K} (m : option (gmap K V)) (k : K) : option V :=
  match m with
  | None => None
  | Some m => m !! k
  end.

(** ** [webhook/server.go] *)
Module Root.
Section Server.
Context {World : Type} (Unmarshal : Decoder).

(** [type Server struct]; [mux] belongs to [net/http] and is left out. *)
Record Server := mkServer {
  Secret : string;
  AccessToken : string;
  VerificationToken : string;
  objectHandlers : option (gmap decode.Object (Callback World))
}.

Definition NewServer (secret accessToken verificationToken : string) : Server :=
  {| Secret := secret; AccessToken := accessToken;
     VerificationToken := verificationToken; objectHandlers := None |}.

Definition HandleObjectFunc (ws : Server) (object : decode.Object)
    (objectHandler : Callback World) : Server :=
  let handlers :=
    match objectHandlers ws with
    | None => ∅
    | Some m => m
    end in
  {| Secret := Secret ws; AccessToken := AccessToken ws;
     VerificationToken := VerificationToken ws;
     objectHandlers := Some (<[object := objectHandler]> handlers) |}.

Definition parsePostRequestBody (st : Exchange World)
  : decode.RequestBody * error * Exchange World :=
  let request := decode.zero in
  let '(bufBody, err, st) := ReadBody st in
  match err with
  | Some e => (request, Some e, st)
  | None =>
      let '(request, err) := Unmarshal bufBody request in
      (request, err, st)
  end.

Definition rootHandlerFunc (ws : Server) (st : Exchange World) : Exchange World :=
  if decide (http.Method (req st) = http.MethodGet) then
    match http.ParseForm (req st) with
    | Some _ => WriteHeader st http.StatusBadRequest
    | None =>
        if decide (http.FormValue (req st) "hub.mode" = "subscribe"
                   /\ http.FormValue (req st) "hub.verify_token" = VerificationToken ws)
        then Write st (bytes_of_string (http.FormValue (req st) "hub.challenge"))
        else WriteHeader st http.StatusForbidden
    end
  else if decide (http.Method (req st) = http.MethodPost) then
    let '(bufBody, err, st) := ReadBody st in
    match err with
    | Some _ => WriteHeader st http.StatusBadRequest
    | None =>
        match verifySignature (http.Get (http.Header (req st)) "X-Hub-Signature")
                (Secret ws) bufBody with
        | Some _ => WriteHeader st http.StatusForbidden
        | None =>
            let '(rb, err, st) := parsePostRequestBody st in
            match err with
            | Some _ => WriteHeader st http.StatusBadRequest
            | None =>
                match index (objectHandlers ws) (decode.object rb) with
                | None => WriteHeader st http.StatusOK
                | Some handler => answer st handler rb
                end
            end
        end
    end
  else WriteHeader st http.StatusForbidden.
End Server.
End Root.

(** ** The pattern-keyed variant of the server *)
Module Patterns.
Section Server.
Context {World : Type} (Unmarshal : Decoder).

(** [objectHandlers map[string]map[decode.Object]func(...) error]: either
    level may be [nil]. *)
Record Server := mkServer {
  Secret : string;
  AccessToken : string;
  VerificationToken : string;
  objectHandlers : option (gmap string (option (gmap decode.Object (Callback World))))
}.

Definition NewServer (secret accessToken verificationToken : string) : Server :=
  {| Secret := secret; AccessToken := accessToken;
     VerificationToken := verificationToken; objectHandlers := None |}.

Definition HandleObjectFunc (ws : Server) (pattern : string) (object : decode.Object)
    (objectHandler : Callback World) : Server :=
  let outer :=
    match objectHandlers ws with
    | None => ∅
    | Some m => m
    end in
  let inner :=
    match outer !! pattern with
    | Some (Some m) => m
    | _ => ∅
    end in
  {| Secret := Secret ws; AccessToken := AccessToken ws;
     VerificationToken := VerificationToken ws;
     objectHandlers := Some (<[pattern := Some (<[object := objectHandler]> inner)]> outer) |}.

Definition webhookHandlerFunc (ws : Server) (st : Exchange World) : Exchange World :=
  if decide (http.Method (req st) = http.MethodGet) then
    match http.ParseForm (req st) with
    | Some _ => WriteHeader st http.StatusBadRequest
    | None =>
        if decide (http.FormValue (req st) "hub.mode" = "subscribe"
                   /\ http.FormValue (req st) "hub.verify_token" = VerificationToken ws)
        then Write st (bytes_of_string (http.FormValue (req st) "hub.challenge"))
        else WriteHeader st http.StatusForbidden
    end
  else WriteHeader st http.StatusForbidden.

Definition getObjectHandlerFunc (ws : Server) (pattern : string)
    (st : Exchange World) : Exchange World :=
  if decide (http.Method (req st) = http.MethodPost) then
    let '(bufBody, err, st) := ReadBody st in
    match err with
    | Some _ => WriteHeader st http.StatusBadRequest
    | None =>
        match verifySignature (http.Get (http.Header (req st)) "X-Hub-Signature")
                (Secret ws) bufBody with
        | Some _ => WriteHeader st http.StatusForbidden
        | None =>
            let '(reqBody, err) := Unmarshal bufBody decode.zero in
            match err with
            | Some _ => WriteHeader st http.StatusBadRequest
            | None =>
                match index (objectHandlers ws) pattern with
                | None => WriteHeader st http.StatusOK
                | Some objectHandlerMap =>
                    match index objectHandlerMap (decode.object reqBody) with
                    | None => WriteHeader st http.StatusOK
                    | Some handler => answer st handler reqBody
                    end
                end
            end
        end
    end
  else WriteHeader st http.StatusForbidden.
End Server.
End Patterns.

(** ** Vocabulary of the statements *)

(** The hex-encoded HMAC-SHA1 of [body] keyed by [secret], and the canonical
    header ["sha1=<hexHMAC>"] the platform signs a body with. *)
Definition hexHMACSHA1 (secret : string) (body : list byte) : string :=
  hex.EncodeToString
    (hmac.Sum (hmac.Write (hmac.New (bytes_of_string secret)) body) []).

Definition sign (body : list byte) (secret : string) : string :=
  "sha1=" +:+ hexHMACSHA1 secret body.

(** The three errors [verifySignature] creates, under the names the
    design gives them. *)
Definition MissingSignature : error := errors.New "error: signature is empty".
Definition MalformedSignature : error := errors.New "errors: invalid signature".
Definition SignatureMismatch : error :=
  errors.New "error: signature hash do not match expected hash".

(** The registry's [lookup]: the callback registered for an object (under a
    pattern, in the pattern-keyed variant), if there is one. *)
Definition Root_lookup {World : Type} (ws : Root.Server)
    (object : decode.Object) : option (Callback World) :=
  index (Root.objectHandlers ws) object.

Definition Patterns_lookup {World : Type} (ws : Patterns.Server)
    (pattern : string) (object : decode.Object) : option (Callback World) :=
  match index (Patterns.objectHandlers ws) pattern with
  | Some handlers => index handlers object
  | None => None
  end.

(** The request once its body was read to the end. *)
Definition drained (rq : http.Request) : http.Request :=
  http.withBody rq
    {| http.pending := []; http.failure := http.failure (http.Body rq) |}.

(** The response a handler's result turns into: 400 for an error, 200 for
    [nil], no body either way. *)
Definition outcome (err : error) : http.ResponseWriter :=
  {| http.wroteHeader := true;
     http.status := match err with Some _ => 400 | None => 200 end;
     http.written := [] |}.

(** Whether the byte [c] occurs in [s], and how often. *)
Fixpoint occurs (c : ascii) (s : string) : bool :=
  match s with
  | EmptyString => false
  | String a rest => if Ascii.eqb a c then true else occurs c rest
  end.

Fixpoint count (c : ascii) (s : string) : nat :=
  match s with
  | EmptyString => 0
  | String a rest => (if Ascii.eqb a c then 1 else 0) + count c rest
  end.

(** The part of [s] before the first [c] (all of [s] when there is none),
    and the part after the first [c] (nothing when there is none). *)
Fixpoint upTo (c : ascii) (s : string) : string :=
  match s with
  | EmptyString => EmptyString
  | String a rest => if Ascii.eqb a c then EmptyString else String a (upTo c rest)
  end.

Fixpoint afterFirst (c : ascii) (s : string) : string :=
  match s with
  | EmptyString => EmptyString
  | String a rest => if Ascii.eqb a c then rest else afterFirst c rest
  end.

(** The claim about the hash portion, as the design words it: for a header
    with a separator, verification succeeds exactly when everything after
    the first ['='] is the expected digest. *)
Definition compares_whole_remainder : Prop :=
  forall (sig secret : string) (payload : list byte),
    occurs "=" sig = true ->
    (verifySignature sig secret payload = None
     <-> afterFirst "=" sig = hexHMACSHA1 secret payload).

(** ** A sample host, for closed instances of the statements *)
Module Sample.
Definition dq : ascii := "034"%char.
Definition quoted (s : string) : string := String dq (s +:+ String dq EmptyString).

(** The smallest envelope: [{"object":"<name>"}]. *)
Definition envelope (name : string) : string :=
  "{" +:+ quoted "object" +:+ ":" +:+ quoted name +:+ "}".

Fixpoint stripPrefix (p s : string) : option string :=
  match p, s with
  | EmptyString, _ => Some s
  | String a p', String b s' => if Ascii.eqb a b then stripPrefix p' s' else None
  | String _ _, EmptyString => None
  end.

(** A decoder of exactly these envelopes; every other input, the empty
    one among them, is an error. *)
Definition Unmarshal : Decoder := fun data request =>
  match stripPrefix ("{" +:+ quoted "object" +:+ ":" +:+ String dq EmptyString)
          (string_of_bytes data) with
  | Some rest =>
      if decide (afterFirst dq rest = "}")
      then ({| decode.object := upTo dq rest; decode.Entry := decode.Entry request |}, None)
      else (request, errors.New "invalid character")
  | None => (request, errors.New "unexpected end of JSON input")
  end.

(** The hosting application counts the events its callbacks saw. *)
Definition World : Type := nat.
Definition accept : Callback World := fun _ n => (S n, None).
Definition reject : Callback World := fun _ n => (S n, errors.New "cannot handle").

Definition body : list byte := bytes_of_string (envelope "page").

Definition post (signature : list string) (payload : http.Reader) : http.Request :=
  {| http.Method := http.MethodPost;
     http.Header := {[ "X-Hub-Signature" := signature ]};
     http.Form := ∅; http.FormErr := None;
     http.Body := payload |}.

Definition get (form : gmap string (list string)) : http.Request :=
  {| http.Method := http.MethodGet;
     http.Header := ∅;
     http.Form := form; http.FormErr := None;
     http.Body := {| http.pending := []; http.failure := None |} |}.

(** A well-signed delivery of a ["page"] event under the secret ["s3cret"]. *)
Definition signedPost : http.Request :=
  post [sign body "s3cret"] {| http.pending := body; http.failure := None |}.
End Sample.

(** ** Further vocabulary *)

(** Whether every byte of [s] is one of the sixteen digits of
    [hex.hextable]. *)
Fixpoint lowerHex (s : string) : bool :=
  match s with
  | EmptyString => true
  | String a rest => occurs a hex.hextable && lowerHex rest
  end.

(** The raw HMAC-SHA1 digest that [verifySignature] hex-encodes. *)
Definition hmacSHA1 (secret : string) (body : list byte) : list byte :=
  hmac.Sum (hmac.Write (hmac.New (bytes_of_string secret)) body) [].

(** The SHA-1 digest of a byte string, as [sha1.Sum] of a fresh hash
    returns it. *)
Definition sha1Sum (data : list byte) : list byte :=
  map byte_of_val (sha1.Sum (sha1.Write sha1.New (map byte_val data)) []).

(** Registrations made one after the other: [HandleObjectFunc] called for
    each entry of [regs], first to last. *)
Definition Root_registerAll {World : Type}
    (regs : list (decode.Object * Callback World)) (ws : Root.Server) : Root.Server :=
  fold_left (fun ws reg => Root.HandleObjectFunc ws (fst reg) (snd reg)) regs ws.

Definition Patterns_registerAll {World : Type}
    (regs : list (string * decode.Object * Callback World))
    (ws : Patterns.Server) : Patterns.Server :=
  fold_left
    (fun ws reg => Patterns.HandleObjectFunc ws (fst (fst reg)) (snd (fst reg)) (snd reg))
    regs ws.

(** The value of the last entry of [regs] whose key is [k]. *)
Fixpoint lastFor {K V : Type} `{EqDecision K} (k : K) (regs : list (K * V)) : option V :=
  match regs with
  | [] => None
  | (k', v) :: rest =>
      match lastFor k rest with
      | Some v' => Some v'
      | None => if decide (k = k') then Some v else None
      end
  end.

(** * Properties *)

(** ** The standard-library functions on known inputs *)

Example sha1_abc :
  hex.EncodeToString
    (map byte_of_val
       (sha1.Sum (sha1.Write sha1.New (map byte_val (bytes_of_string "abc"))) []))
  = "a9993e364706816aba3e25717850c26c9cd0d89d".
Proof. vm_compute. reflexivity. Qed.

Example hmac_rfc2202_case2 :
  hexHMACSHA1 "Jefe" (bytes_of_string "what do ya want for nothing?")
  = "effcdf6ae5eb2fa2d27416d5f184df9c259a7c79".
Proof. vm_compute. reflexivity. Qed.

Example sign_sample :
  sign Sample.body "s3cret" = "sha1=" +:+ hexHMACSHA1 "s3cret" Sample.body.
Proof. reflexivity. Qed.

Example Split_examples :
  gostrings.Split "sha1=abc" "=" = ["sha1"; "abc"]
  /\ gostrings.Split "sha1=abc=def" "=" = ["sha1"; "abc"; "def"]
  /\ gostrings.Split "sha1" "=" = ["sha1"]
  /\ gostrings.Split EmptyString "=" = [EmptyString]
  /\ gostrings.Split "=" "=" = [EmptyString; EmptyString].
Proof. repeat split. Qed.

(** ** Splitting a header at ['='] *)
Section SplitFacts.
Variable sep : ascii.

Lemma Split_fields (s : string) :
  gostrings.Split s sep
  = upTo sep s :: (if occurs sep s then gostrings.Split (afterFirst sep s) sep else []).
Proof.
  induction s as [|a rest IH]; simpl; [reflexivity|].
  destruct (Ascii.eqb a sep); [reflexivity|].
  rewrite IH. reflexivity.
Qed.

Lemma Split_length (s : string) :
  length (gostrings.Split s sep) = S (count sep s).
Proof.
  induction s as [|a rest IH]; simpl; [reflexivity|].
  destruct (Ascii.eqb a sep); simpl; [now rewrite IH|].
  destruct (gostrings.Split rest sep); simpl in *; lia.
Qed.

Lemma count_occurs (s : string) : count sep s = 0 <-> occurs sep s = false.
Proof.
  induction s as [|a rest IH]; simpl; [tauto|].
  destruct (Ascii.eqb a sep); simpl; [split; [lia|discriminate]|exact IH].
Qed.

Lemma Split_second (s : string) :
  occurs sep s = true ->
  nth 1 (gostrings.Split s sep) EmptyString = upTo sep (afterFirst sep s).
Proof.
  intros Hocc. rewrite Split_fields, Hocc. simpl.
  rewrite Split_fields. reflexivity.
Qed.

Lemma upTo_absent (s : string) : occurs sep s = false -> upTo sep s = s.
Proof.
  induction s as [|a rest IH]; simpl; [reflexivity|].
  destruct (Ascii.eqb a sep); [discriminate|].
  intros Hocc. now rewrite IH.
Qed.

Lemma occurs_after_count (s : string) :
  count sep s = 1 -> occurs sep (afterFirst sep s) = false.
Proof.
  induction s as [|a rest IH]; simpl; [discriminate|].
  destruct (Ascii.eqb a sep); simpl.
  - intros Hc. apply count_occurs. lia.
  - exact IH.
Qed.

Lemma occurs_append (p q : string) :
  occurs sep (p +:+ q) = occurs sep p || occurs sep q.
Proof.
  induction p as [|a rest IH]; simpl; [reflexivity|].
  destruct (Ascii.eqb a sep); [reflexivity|exact IH].
Qed.

Lemma afterFirst_append (p q : string) :
  occurs sep p = false -> afterFirst sep (p +:+ String sep q) = q.
Proof.
  induction p as [|a rest IH]; simpl.
  - now rewrite Ascii.eqb_refl.
  - destruct (Ascii.eqb a sep); [discriminate|exact IH].
Qed.
End SplitFacts.

(** ** Hex digits *)

Lemma digit_not_separator (n : Z) : Ascii.eqb (hex.digit n) "=" = false.
Proof.
  unfold hex.digit.
  destruct (Z.to_nat n) as [|[|[|[|[|[|[|[|[|[|[|[|[|[|[|[|k]]]]]]]]]]]]]]]];
    reflexivity.
Qed.

Lemma EncodeToString_no_separator (src : list byte) :
  occurs "=" (hex.EncodeToString src) = false.
Proof.
  induction src as [|v rest IH]; simpl; [reflexivity|].
  now rewrite !digit_not_separator.
Qed.

Lemma hexHMACSHA1_no_separator (secret : string) (body : list byte) :
  occurs "=" (hexHMACSHA1 secret body) = false.
Proof. apply EncodeToString_no_separator. Qed.

(** ** [verifySignature] case by case *)

Lemma verifySignature_cases (sig secret : string) (payload : list byte) :
  verifySignature sig secret payload =
    if decide (sig = EmptyString) then MissingSignature
    else if occurs "=" sig
    then if decide (upTo "=" (afterFirst "=" sig) = hexHMACSHA1 secret payload)
         then None else SignatureMismatch
    else MalformedSignature.
Proof.
  unfold verifySignature.
  destruct (decide (sig = EmptyString)) as [|Hne]; [reflexivity|].
  rewrite Split_length.
  destruct (occurs "=" sig) eqn:Hocc.
  - destruct (decide (S (count "=" sig) < 2)) as [Hlt|_].
    + assert (count "=" sig = 0) as H0 by lia.
      apply count_occurs in H0. congruence.
    + rewrite Split_second by exact Hocc.
      fold (hexHMACSHA1 secret payload).
      destruct (decide (upTo "=" (afterFirst "=" sig) = hexHMACSHA1 secret payload));
        destruct (decide (upTo "=" (afterFirst "=" sig) <> hexHMACSHA1 secret payload));
        try reflexivity; contradiction.
  - apply count_occurs in Hocc. rewrite Hocc.
    destruct (decide (1 < 2)); [reflexivity|lia].
Qed.

Lemma verifySignature_accepts (p secret : string) (payload : list byte) :
  occurs "=" p = false ->
  verifySignature (p +:+ String "=" (hexHMACSHA1 secret payload)) secret payload = None.
Proof.
  intros Hp. rewrite verifySignature_cases.
  destruct (decide (p +:+ String "=" (hexHMACSHA1 secret payload) = EmptyString)) as [He|_].
  - destruct p; discriminate He.
  - rewrite occurs_append. simpl. rewrite orb_true_r.
    rewrite afterFirst_append by exact Hp.
    rewrite upTo_absent by apply hexHMACSHA1_no_separator.
    destruct (decide (hexHMACSHA1 secret payload = hexHMACSHA1 secret payload));
      [reflexivity|contradiction].
Qed.

(** ** The signature claims *)

(** C2, as the design states it, fails: a header with a second ['='] is
    accepted on its second field alone, although what follows the first
    ['='] is not the digest. *)
Lemma whole_remainder_refuted : ~ compares_whole_remainder.
Proof.
  intros Hall.
  specialize (Hall (sign Sample.body "s3cret" +:+ "=x") "s3cret" Sample.body).
  assert (occurs "=" (sign Sample.body "s3cret" +:+ "=x") = true) as Hocc
    by (vm_compute; reflexivity).
  destruct (Hall Hocc) as [Hto _].
  assert (verifySignature (sign Sample.body "s3cret" +:+ "=x") "s3cret" Sample.body = None)
    as Hok by (vm_compute; reflexivity).
  specialize (Hto Hok). vm_compute in Hto. discriminate Hto.
Qed.

(** C2 (amended): for every header that contains ['='], verification
    compares the second ['=']-separated field of the header, that is the
    text after the first ['='] up to the next ['='] or the end, with the
    hex HMAC-SHA1 of the body, and succeeds exactly when they are equal;
    for a header with exactly one ['='] that field is the whole remainder. *)
Theorem verifySignature_compares_second_field
    (sig secret : string) (payload : list byte) :
  occurs "=" sig = true ->
  nth 1 (gostrings.Split sig "=") EmptyString = upTo "=" (afterFirst "=" sig)
  /\ (verifySignature sig secret payload = None
      <-> upTo "=" (afterFirst "=" sig) = hexHMACSHA1 secret payload)
  /\ (count "=" sig = 1 ->
      (verifySignature sig secret payload = None
       <-> afterFirst "=" sig = hexHMACSHA1 secret payload)).
Proof.
  intros Hocc.
  assert (verifySignature sig secret payload = None
          <-> upTo "=" (afterFirst "=" sig) = hexHMACSHA1 secret payload) as Hiff.
  { rewrite verifySignature_cases, Hocc.
    destruct (decide (sig = EmptyString)) as [->|_]; [discriminate Hocc|].
    destruct (decide (upTo "=" (afterFirst "=" sig) = hexHMACSHA1 secret payload));
      split; intros; try assumption; try reflexivity; try discriminate; contradiction. }
  split; [now apply Split_second|].
  split; [exact Hiff|].
  intros Hone. rewrite Hiff.
  rewrite upTo_absent by (now apply occurs_after_count). tauto.
Qed.

Lemma verifySignature_compares_second_field_witness :
  occurs "=" "sha1=abc=def" = true
  /\ nth 1 (gostrings.Split "sha1=abc=def" "=") EmptyString = "abc"
  /\ (verifySignature "sha1=abc=def" "s3cret" Sample.body = None
      <-> "abc" = hexHMACSHA1 "s3cret" Sample.body).
Proof.
  assert (occurs "=" "sha1=abc=def" = true) as Hocc by reflexivity.
  split; [exact Hocc|].
  destruct (verifySignature_compares_second_field "sha1=abc=def" "s3cret"
              Sample.body Hocc) as (Hsecond & Hiff & _).
  split; [exact Hsecond|exact Hiff].
Defined.

(** C3: round trip.  For every body [B] and secret [S], verifying the
    canonically signed header ["sha1=" ++ hexHMACSHA1(S, B)] succeeds. *)
Theorem verify_sign_roundtrip (B : list byte) (S : string) :
  verifySignature (sign B S) S B = None.
Proof. exact (verifySignature_accepts "sha1" S B eq_refl). Qed.

(** C8: verification fails with [MissingSignature] exactly when the header
    is the empty string, and with [MalformedSignature] when the non-empty
    header contains no ['=']. *)
Theorem verifySignature_missing_malformed
    (sig secret : string) (payload : list byte) :
  (verifySignature sig secret payload = MissingSignature <-> sig = EmptyString)
  /\ (sig <> EmptyString -> occurs "=" sig = false ->
      verifySignature sig secret payload = MalformedSignature).
Proof.
  rewrite verifySignature_cases. split.
  - destruct (decide (sig = EmptyString)) as [He|Hne]; [tauto|].
    split; [|contradiction].
    destruct (occurs "=" sig); [|discriminate].
    destruct (decide (upTo "=" (afterFirst "=" sig) = hexHMACSHA1 secret payload));
      discriminate.
  - intros Hne Hocc.
    destruct (decide (sig = EmptyString)); [contradiction|].
    now rewrite Hocc.
Qed.

Lemma verifySignature_missing_malformed_witness :
  verifySignature EmptyString "s3cret" Sample.body = MissingSignature
  /\ verifySignature "sha1abc" "s3cret" Sample.body = MalformedSignature.
Proof.
  split.
  - apply (verifySignature_missing_malformed EmptyString "s3cret" Sample.body).
    reflexivity.
  - apply (verifySignature_missing_malformed "sha1abc" "s3cret" Sample.body).
    + discriminate.
    + reflexivity.
Defined.

(** C9: the algorithm tag is never checked.  For every prefix [p] without
    ['='], every secret [S] and body [B], the header
    [p ++ "=" ++ hexHMACSHA1(S, B)] verifies: ["md5=<sha1 hex>"] is accepted
    like ["sha1=<sha1 hex>"]. *)
Theorem verifySignature_ignores_algorithm (p S : string) (B : list byte) :
  occurs "=" p = false ->
  verifySignature (p +:+ "=" +:+ hexHMACSHA1 S B) S B = None.
Proof. intros Hp. exact (verifySignature_accepts p S B Hp). Qed.

Lemma verifySignature_ignores_algorithm_witness :
  occurs "=" "md5" = false
  /\ verifySignature ("md5" +:+ "=" +:+ hexHMACSHA1 "s3cret" Sample.body)
       "s3cret" Sample.body = None.
Proof.
  split; [reflexivity|].
  apply (verifySignature_ignores_algorithm "md5" "s3cret" Sample.body).
  reflexivity.
Defined.

(** ** The handshake *)
Section Handshake.
Context {World : Type} (Unmarshal : Decoder).

Lemma Root_get (ws : Root.Server) (rq : http.Request) (s0 : World) :
  http.Method rq = http.MethodGet ->
  http.ParseForm rq = None ->
  Root.rootHandlerFunc Unmarshal ws (arrive rq s0)
  = if decide (http.FormValue rq "hub.mode" = "subscribe"
               /\ http.FormValue rq "hub.verify_token" = Root.VerificationToken ws)
    then Write (arrive rq s0) (bytes_of_string (http.FormValue rq "hub.challenge"))
    else WriteHeader (arrive rq s0) http.StatusForbidden.
Proof.
  intros Hget Hform. unfold Root.rootHandlerFunc. simpl req.
  destruct (decide (http.Method rq = http.MethodGet)); [|contradiction].
  now rewrite Hform.
Qed.

Lemma Patterns_get (ws : Patterns.Server) (rq : http.Request) (s0 : World) :
  http.Method rq = http.MethodGet ->
  http.ParseForm rq = None ->
  Patterns.webhookHandlerFunc ws (arrive rq s0)
  = if decide (http.FormValue rq "hub.mode" = "subscribe"
               /\ http.FormValue rq "hub.verify_token" = Patterns.VerificationToken ws)
    then Write (arrive rq s0) (bytes_of_string (http.FormValue rq "hub.challenge"))
    else WriteHeader (arrive rq s0) http.StatusForbidden.
Proof.
  intros Hget Hform. unfold Patterns.webhookHandlerFunc. simpl req.
  destruct (decide (http.Method rq = http.MethodGet)); [|contradiction].
  now rewrite Hform.
Qed.

(** C4: for every handshake GET whose query parses, if [hub.mode] is
    ["subscribe"] and [hub.verify_token] is the configured
    [VerificationToken], the response is status 200 with the value of
    [hub.challenge] as its body, unmodified; in every other case it is
    status 403 with an empty body.  Both for [rootHandlerFunc] and for
    [webhookHandlerFunc] of the pattern-keyed variant. *)
Theorem handshake_reply
    (ws : Root.Server (World := World)) (wp : Patterns.Server (World := World))
    (rq : http.Request) (s0 : World) :
  http.Method rq = http.MethodGet ->
  http.ParseForm rq = None ->
  let mode := http.FormValue rq "hub.mode" in
  let token := http.FormValue rq "hub.verify_token" in
  let challenge := http.FormValue rq "hub.challenge" in
  let accepted :=
    {| http.wroteHeader := true; http.status := 200;
       http.written := bytes_of_string challenge |} in
  let refused :=
    {| http.wroteHeader := true; http.status := 403; http.written := [] |} in
  string_of_bytes (http.written accepted) = challenge
  /\ (mode = "subscribe" /\ token = Root.VerificationToken ws ->
      resp (Root.rootHandlerFunc Unmarshal ws (arrive rq s0)) = accepted)
  /\ (~ (mode = "subscribe" /\ token = Root.VerificationToken ws) ->
      resp (Root.rootHandlerFunc Unmarshal ws (arrive rq s0)) = refused)
  /\ (mode = "subscribe" /\ token = Patterns.VerificationToken wp ->
      resp (Patterns.webhookHandlerFunc wp (arrive rq s0)) = accepted)
  /\ (~ (mode = "subscribe" /\ token = Patterns.VerificationToken wp) ->
      resp (Patterns.webhookHandlerFunc wp (arrive rq s0)) = refused).
Proof.
  intros Hget Hform mode token challenge accepted refused.
  rewrite Root_get, Patterns_get by assumption.
  fold mode token challenge.
  split; [apply string_of_list_byte_of_string|].
  repeat split; intros Hcase.
  - destruct (decide (mode = "subscribe" /\ token = Root.VerificationToken ws));
      [reflexivity|contradiction].
  - destruct (decide (mode = "subscribe" /\ token = Root.VerificationToken ws));
      [contradiction|reflexivity].
  - destruct (decide (mode = "subscribe" /\ token = Patterns.VerificationToken wp));
      [reflexivity|contradiction].
  - destruct (decide (mode = "subscribe" /\ token = Patterns.VerificationToken wp));
      [contradiction|reflexivity].
Qed.

(** C10: absent query parameters read as the empty string.  For a server
    constructed with an empty [VerificationToken], a GET carrying
    [hub.mode=subscribe] and no [hub.verify_token] parameter succeeds with
    status 200 and the value of [hub.challenge] as body, which is empty
    when that parameter is absent too.  Both variants. *)
Theorem handshake_absent_token
    (secret accessToken : string) (rq : http.Request) (s0 : World) :
  http.Method rq = http.MethodGet ->
  http.ParseForm rq = None ->
  http.FormValue rq "hub.mode" = "subscribe" ->
  http.Form rq !! "hub.verify_token" = None ->
  let accepted :=
    {| http.wroteHeader := true; http.status := 200;
       http.written := bytes_of_string (http.FormValue rq "hub.challenge") |} in
  resp (Root.rootHandlerFunc Unmarshal
          (Root.NewServer secret accessToken EmptyString) (arrive rq s0)) = accepted
  /\ resp (Patterns.webhookHandlerFunc
             (Patterns.NewServer secret accessToken EmptyString) (arrive rq s0)) = accepted
  /\ (http.Form rq !! "hub.challenge" = None -> http.written accepted = []).
Proof.
  intros Hget Hform Hmode Habsent accepted.
  assert (http.FormValue rq "hub.verify_token" = EmptyString) as Htoken
    by (unfold http.FormValue, http.Get; now rewrite Habsent).
  rewrite Root_get, Patterns_get by assumption.
  simpl Root.VerificationToken. simpl Patterns.VerificationToken.
  rewrite Hmode, Htoken.
  destruct (decide ("subscribe" = "subscribe" /\ EmptyString = EmptyString)) as [_|Hn];
    [|exfalso; apply Hn; split; reflexivity].
  repeat split.
  intros Hchallenge. subst accepted. simpl.
  unfold http.FormValue, http.Get. now rewrite Hchallenge.
Qed.
End Handshake.

Lemma handshake_reply_witness :
  let rq := Sample.get {[ "hub.mode" := ["subscribe"];
                          "hub.verify_token" := ["t0ken"];
                          "hub.challenge" := ["xyz"] ]} in
  resp (Root.rootHandlerFunc Sample.Unmarshal
          (Root.NewServer "s3cret" "access" "t0ken") (arrive rq 0))
  = {| http.wroteHeader := true; http.status := 200;
       http.written := bytes_of_string "xyz" |}
  /\ resp (Patterns.webhookHandlerFunc
             (Patterns.NewServer "s3cret" "access" "other") (arrive rq 0))
     = {| http.wroteHeader := true; http.status := 403; http.written := [] |}.
Proof.
  intros rq.
  destruct (handshake_reply Sample.Unmarshal
              (Root.NewServer "s3cret" "access" "t0ken")
              (Patterns.NewServer "s3cret" "access" "other") rq 0
              eq_refl eq_refl) as (_ & Hroot & _ & _ & Hpat).
  split.
  - apply Hroot. split; reflexivity.
  - apply Hpat. intros [_ Htoken]. vm_compute in Htoken. discriminate Htoken.
Defined.

Lemma handshake_absent_token_witness :
  let rq := Sample.get {[ "hub.mode" := ["subscribe"] ]} in
  resp (Root.rootHandlerFunc Sample.Unmarshal
          (Root.NewServer "s3cret" "access" EmptyString) (arrive rq 0))
  = {| http.wroteHeader := true; http.status := 200; http.written := [] |}.
Proof.
  intros rq.
  destruct (handshake_absent_token Sample.Unmarshal "s3cret" "access" rq 0
              eq_refl eq_refl eq_refl eq_refl) as (Hroot & _ & _).
  exact Hroot.
Defined.

(** ** Event deliveries *)
Section Delivery.
Context {World : Type} (Unmarshal : Decoder).

Lemma answer_outcome (st : Exchange World) (handler : Callback World)
    (rb : decode.RequestBody) :
  resp st = http.NewResponseWriter ->
  answer st handler rb
  = {| resp := outcome (snd (handler rb (host st))); req := req st;
       host := fst (handler rb (host st)); invoked := invoked st ++ [rb] |}.
Proof.
  intros Hfresh. unfold answer, call.
  destruct (handler rb (host st)) as [host' [e|]]; simpl;
    unfold WriteHeader; simpl; rewrite Hfresh; reflexivity.
Qed.

(** [rootHandlerFunc] on a POST whose body reads and whose signature
    verifies: the envelope is decoded from a second read of [r.Body],
    which the first read has drained. *)
Lemma Root_post (ws : Root.Server) (rq : http.Request) (s0 : World) :
  http.Method rq = http.MethodPost ->
  http.failure (http.Body rq) = None ->
  verifySignature (http.Get (http.Header rq) "X-Hub-Signature")
    (Root.Secret ws) (http.pending (http.Body rq)) = None ->
  Root.rootHandlerFunc Unmarshal ws (arrive rq s0)
  = let st := arrive (drained rq) s0 in
    let '(rb, err) := Unmarshal [] decode.zero in
    match err with
    | Some _ => WriteHeader st http.StatusBadRequest
    | None =>
        match Root_lookup ws (decode.object rb) with
        | None => WriteHeader st http.StatusOK
        | Some handler => answer st handler rb
        end
    end.
Proof.
  intros Hpost Hread Hsig.
  unfold Root.rootHandlerFunc, Root.parsePostRequestBody, ReadBody, http.ReadFrom.
  simpl. rewrite Hpost, Hread, Hsig. simpl.
  unfold drained, arrive, http.withBody. simpl. rewrite Hread.
  destruct (Unmarshal [] decode.zero) as [rb err]. reflexivity.
Qed.

(** [getObjectHandlerFunc] on the same requests: the envelope is decoded
    from the bytes that were verified. *)
Lemma Patterns_post (ws : Patterns.Server) (pattern : string)
    (rq : http.Request) (s0 : World) :
  http.Method rq = http.MethodPost ->
  http.failure (http.Body rq) = None ->
  verifySignature (http.Get (http.Header rq) "X-Hub-Signature")
    (Patterns.Secret ws) (http.pending (http.Body rq)) = None ->
  Patterns.getObjectHandlerFunc Unmarshal ws pattern (arrive rq s0)
  = let st := arrive (drained rq) s0 in
    let '(rb, err) := Unmarshal (http.pending (http.Body rq)) decode.zero in
    match err with
    | Some _ => WriteHeader st http.StatusBadRequest
    | None =>
        match Patterns_lookup ws pattern (decode.object rb) with
        | None => WriteHeader st http.StatusOK
        | Some handler => answer st handler rb
        end
    end.
Proof.
  intros Hpost Hread Hsig.
  unfold Patterns.getObjectHandlerFunc, ReadBody, http.ReadFrom.
  simpl. rewrite Hpost, Hread, Hsig. simpl.
  unfold drained, arrive, http.withBody. simpl. rewrite Hread.
  destruct (Unmarshal (http.pending (http.Body rq)) decode.zero) as [rb [e|]];
    [reflexivity|].
  unfold Patterns_lookup.
  destruct (index (Patterns.objectHandlers ws) pattern) as [m|]; reflexivity.
Qed.
End Delivery.

(** ** The registry *)
Section Registry.
Context {World : Type}.

Lemma Root_register_lookup (ws : Root.Server) (o : decode.Object)
    (h : Callback World) :
  Root_lookup (Root.HandleObjectFunc ws o h) o = Some h.
Proof. unfold Root_lookup. simpl. apply lookup_insert_eq. Qed.

Lemma Root_register_twice (ws : Root.Server) (o : decode.Object)
    (h1 h2 : Callback World) :
  Root.HandleObjectFunc (Root.HandleObjectFunc ws o h1) o h2
  = Root.HandleObjectFunc ws o h2.
Proof.
  unfold Root.HandleObjectFunc. simpl. f_equal. f_equal.
  apply insert_insert_eq.
Qed.

Lemma Patterns_register_lookup (ws : Patterns.Server) (pattern : string)
    (o : decode.Object) (h : Callback World) :
  Patterns_lookup (Patterns.HandleObjectFunc ws pattern o h) pattern o = Some h.
Proof.
  unfold Patterns_lookup. simpl. rewrite lookup_insert_eq. simpl.
  apply lookup_insert_eq.
Qed.

Lemma Patterns_register_twice (ws : Patterns.Server) (pattern : string)
    (o : decode.Object) (h1 h2 : Callback World) :
  Patterns.HandleObjectFunc (Patterns.HandleObjectFunc ws pattern o h1) pattern o h2
  = Patterns.HandleObjectFunc ws pattern o h2.
Proof.
  unfold Patterns.HandleObjectFunc. simpl. f_equal. f_equal.
  rewrite lookup_insert_eq, insert_insert_eq, insert_insert_eq. reflexivity.
Qed.
End Registry.

(** ** The claims about event deliveries *)
Section DeliveryClaims.
Context {World : Type} (Unmarshal : Decoder).

(** C5: every POST whose body reads and whose signature verification fails,
    for whichever of its three reasons, is answered with status 403 and an
    empty body, whatever the body holds; the response is the same for all
    of them, no callback runs and the host is left as it was.  Both
    variants. *)
Theorem bad_signature_forbidden
    (ws : Root.Server (World := World)) (wp : Patterns.Server (World := World))
    (pattern : string) (rq : http.Request) (s0 : World) :
  http.Method rq = http.MethodPost ->
  http.failure (http.Body rq) = None ->
  let header := http.Get (http.Header rq) "X-Hub-Signature" in
  let body := http.pending (http.Body rq) in
  let forbidden :=
    {| resp := {| http.wroteHeader := true; http.status := 403; http.written := [] |};
       req := drained rq; host := s0; invoked := [] |} in
  (verifySignature header (Root.Secret ws) body <> None ->
   Root.rootHandlerFunc Unmarshal ws (arrive rq s0) = forbidden)
  /\ (verifySignature header (Patterns.Secret wp) body <> None ->
      Patterns.getObjectHandlerFunc Unmarshal wp pattern (arrive rq s0) = forbidden).
Proof.
  intros Hpost Hread header body forbidden. subst header body forbidden.
  split; intros Hsig.
  - unfold Root.rootHandlerFunc, ReadBody, http.ReadFrom. simpl.
    rewrite Hpost, Hread. simpl.
    destruct (verifySignature _ _ _); [|contradiction].
    unfold drained, http.withBody. rewrite Hread. reflexivity.
  - unfold Patterns.getObjectHandlerFunc, ReadBody, http.ReadFrom. simpl.
    rewrite Hpost, Hread. simpl.
    destruct (verifySignature _ _ _); [|contradiction].
    unfold drained, http.withBody. rewrite Hread. reflexivity.
Qed.

(** [rootHandlerFunc] never gets past the decoding of a well-signed POST
    when the decoder rejects the empty input, as [json.Unmarshal] does. *)
Lemma Root_post_rejected
    (ws : Root.Server (World := World)) (rq : http.Request) (s0 : World) :
  (forall request, snd (Unmarshal [] request) <> None) ->
  http.Method rq = http.MethodPost ->
  http.failure (http.Body rq) = None ->
  verifySignature (http.Get (http.Header rq) "X-Hub-Signature")
    (Root.Secret ws) (http.pending (http.Body rq)) = None ->
  Root.rootHandlerFunc Unmarshal ws (arrive rq s0)
  = {| resp := {| http.wroteHeader := true; http.status := 400; http.written := [] |};
       req := drained rq; host := s0; invoked := [] |}.
Proof.
  intros Hempty Hpost Hread Hsig.
  rewrite Root_post by assumption. simpl.
  specialize (Hempty decode.zero).
  destruct (Unmarshal [] decode.zero) as [rb [e|]]; [reflexivity|].
  now contradiction Hempty.
Qed.

(** C1 on [webhook/server.go]: the envelope is not decoded from the bytes
    that were verified but from a second read of the drained body.  So a
    POST with a valid signature and a well-formed envelope whose object has
    no registered handler is answered 400, not 200 (no callback runs). *)
Theorem Root_signed_post_refused
    (ws : Root.Server (World := World)) (rq : http.Request) (s0 : World)
    (rb : decode.RequestBody) :
  (forall request, snd (Unmarshal [] request) <> None) ->
  http.Method rq = http.MethodPost ->
  http.failure (http.Body rq) = None ->
  verifySignature (http.Get (http.Header rq) "X-Hub-Signature")
    (Root.Secret ws) (http.pending (http.Body rq)) = None ->
  Unmarshal (http.pending (http.Body rq)) decode.zero = (rb, None) ->
  Root_lookup ws (decode.object rb) = None ->
  let st := Root.rootHandlerFunc Unmarshal ws (arrive rq s0) in
  resp st = {| http.wroteHeader := true; http.status := 400; http.written := [] |}
  /\ http.status (resp st) <> 200
  /\ invoked st = [].
Proof.
  intros Hempty Hpost Hread Hsig _ _ st. subst st.
  rewrite Root_post_rejected by assumption. simpl.
  repeat split. discriminate.
Qed.

(** X21: the same delivery in the pattern-keyed variant, which decodes the
    bytes it verified: a well-formed envelope whose object has no handler
    is answered 200 and no callback runs. *)
Lemma Patterns_unregistered_accepted
    (wp : Patterns.Server (World := World)) (pattern : string)
    (rq : http.Request) (s0 : World) (rb : decode.RequestBody) :
  http.Method rq = http.MethodPost ->
  http.failure (http.Body rq) = None ->
  verifySignature (http.Get (http.Header rq) "X-Hub-Signature")
    (Patterns.Secret wp) (http.pending (http.Body rq)) = None ->
  Unmarshal (http.pending (http.Body rq)) decode.zero = (rb, None) ->
  Patterns_lookup wp pattern (decode.object rb) = None ->
  Patterns.getObjectHandlerFunc Unmarshal wp pattern (arrive rq s0)
  = {| resp := {| http.wroteHeader := true; http.status := 200; http.written := [] |};
       req := drained rq; host := s0; invoked := [] |}.
Proof.
  intros Hpost Hread Hsig Hdec Hnone.
  rewrite Patterns_post by assumption. simpl.
  rewrite Hdec, Hnone. reflexivity.
Qed.

(** The pattern-keyed variant hands a well-formed, well-signed event to
    the callback registered for its object and answers by its result. *)
Lemma Patterns_dispatch
    (wp : Patterns.Server (World := World)) (pattern : string)
    (rq : http.Request) (s0 : World) (rb : decode.RequestBody)
    (handler : Callback World) :
  http.Method rq = http.MethodPost ->
  http.failure (http.Body rq) = None ->
  verifySignature (http.Get (http.Header rq) "X-Hub-Signature")
    (Patterns.Secret wp) (http.pending (http.Body rq)) = None ->
  Unmarshal (http.pending (http.Body rq)) decode.zero = (rb, None) ->
  Patterns_lookup wp pattern (decode.object rb) = Some handler ->
  Patterns.getObjectHandlerFunc Unmarshal wp pattern (arrive rq s0)
  = {| resp := outcome (snd (handler rb s0)); req := drained rq;
       host := fst (handler rb s0); invoked := [rb] |}.
Proof.
  intros Hpost Hread Hsig Hdec Hsome.
  rewrite Patterns_post by assumption. simpl.
  rewrite Hdec, Hsome. now rewrite answer_outcome.
Qed.

(** C6 on [webhook/server.go]: registering [h1] and then [h2] for one
    object leaves the registry as if only [h2] had been registered, but a
    later event of that object does not reach [h2]: the delivery is
    answered 400 before any lookup, because the envelope is decoded from
    a second read of the drained body. *)
Theorem Root_override_not_dispatched
    (ws : Root.Server (World := World)) (o : decode.Object)
    (h1 h2 : Callback World) (rq : http.Request) (s0 : World)
    (rb : decode.RequestBody) :
  let ws' := Root.HandleObjectFunc (Root.HandleObjectFunc ws o h1) o h2 in
  (forall request, snd (Unmarshal [] request) <> None) ->
  http.Method rq = http.MethodPost ->
  http.failure (http.Body rq) = None ->
  verifySignature (http.Get (http.Header rq) "X-Hub-Signature")
    (Root.Secret ws') (http.pending (http.Body rq)) = None ->
  Unmarshal (http.pending (http.Body rq)) decode.zero = (rb, None) ->
  decode.object rb = o ->
  Root_lookup ws' o = Some h2
  /\ ws' = Root.HandleObjectFunc ws o h2
  /\ Root.rootHandlerFunc Unmarshal ws' (arrive rq s0)
     = {| resp := {| http.wroteHeader := true; http.status := 400; http.written := [] |};
          req := drained rq; host := s0; invoked := [] |}.
Proof.
  intros ws' Hempty Hpost Hread Hsig _ _.
  split; [apply Root_register_lookup|].
  split; [apply Root_register_twice|].
  now apply Root_post_rejected.
Qed.

(** X22: the pattern-keyed variant overrides and dispatches: after [h1] and
    then [h2] were registered for an object under a pattern, the registry is as if
    only [h2] had been, and an event of that object runs [h2] and is
    answered by its result. *)
Lemma Patterns_override_dispatched
    (wp : Patterns.Server (World := World)) (pattern : string)
    (o : decode.Object) (h1 h2 : Callback World)
    (rq : http.Request) (s0 : World) (rb : decode.RequestBody) :
  let wp' := Patterns.HandleObjectFunc
               (Patterns.HandleObjectFunc wp pattern o h1) pattern o h2 in
  http.Method rq = http.MethodPost ->
  http.failure (http.Body rq) = None ->
  verifySignature (http.Get (http.Header rq) "X-Hub-Signature")
    (Patterns.Secret wp') (http.pending (http.Body rq)) = None ->
  Unmarshal (http.pending (http.Body rq)) decode.zero = (rb, None) ->
  decode.object rb = o ->
  Patterns_lookup wp' pattern o = Some h2
  /\ wp' = Patterns.HandleObjectFunc wp pattern o h2
  /\ Patterns.getObjectHandlerFunc Unmarshal wp' pattern (arrive rq s0)
     = {| resp := outcome (snd (h2 rb s0)); req := drained rq;
          host := fst (h2 rb s0); invoked := [rb] |}.
Proof.
  intros wp' Hpost Hread Hsig Hdec Hobj.
  split; [apply Patterns_register_lookup|].
  split; [apply Patterns_register_twice|].
  apply Patterns_dispatch; try assumption.
  rewrite Hobj. apply Patterns_register_lookup.
Qed.

(** Whenever [rootHandlerFunc] runs a callback, it is the one registered
    for the object of the envelope, it runs once, and the response is the
    outcome of its result. *)
Lemma Root_invoked (ws : Root.Server (World := World)) (rq : http.Request)
    (s0 : World) (rb : decode.RequestBody) :
  In rb (invoked (Root.rootHandlerFunc Unmarshal ws (arrive rq s0))) ->
  exists handler,
    Root_lookup ws (decode.object rb) = Some handler
    /\ Root.rootHandlerFunc Unmarshal ws (arrive rq s0)
       = {| resp := outcome (snd (handler rb s0)); req := drained rq;
            host := fst (handler rb s0); invoked := [rb] |}.
Proof.
  unfold Root.rootHandlerFunc, Root.parsePostRequestBody, ReadBody, http.ReadFrom.
  simpl.
  destruct (decide (http.Method rq = http.MethodGet)) as [_|_].
  { destruct (http.ParseForm rq); [intros []|].
    destruct (decide _); intros []. }
  destruct (decide (http.Method rq = http.MethodPost)) as [_|_]; [|intros []].
  destruct (http.failure (http.Body rq)) eqn:Hread; [intros []|].
  destruct (verifySignature _ _ _); [intros []|].
  simpl.
  destruct (Unmarshal [] decode.zero) as [rb' [e|]]; [intros []|].
  fold (Root_lookup ws (decode.object rb')).
  destruct (Root_lookup ws (decode.object rb')) as [handler|] eqn:Hreg; [|intros []].
  rewrite answer_outcome by reflexivity. simpl.
  intros [<-|[]]. exists handler. split; [exact Hreg|].
  unfold drained, http.withBody. rewrite Hread. reflexivity.
Qed.

(** C7: for every POST that reaches a registered handler, the response is
    status 400 when the handler returns an error and 200 when it returns
    [nil]; the body is empty in both cases, so nothing of the error value
    is sent and only the status differs.  In [webhook/server.go] a run that
    invoked a callback is such a request; in the pattern-keyed variant
    every well-signed, well-formed event of a registered object is. *)
Theorem handler_result_decides_status :
  (forall e, outcome (Some e)
             = {| http.wroteHeader := true; http.status := 400; http.written := [] |})
  /\ outcome None
     = {| http.wroteHeader := true; http.status := 200; http.written := [] |}
  /\ (forall (ws : Root.Server (World := World)) rq s0 rb,
        In rb (invoked (Root.rootHandlerFunc Unmarshal ws (arrive rq s0))) ->
        exists handler,
          Root_lookup ws (decode.object rb) = Some handler
          /\ resp (Root.rootHandlerFunc Unmarshal ws (arrive rq s0))
             = outcome (snd (handler rb s0)))
  /\ (forall (wp : Patterns.Server (World := World)) pattern rq s0 rb handler,
        http.Method rq = http.MethodPost ->
        http.failure (http.Body rq) = None ->
        verifySignature (http.Get (http.Header rq) "X-Hub-Signature")
          (Patterns.Secret wp) (http.pending (http.Body rq)) = None ->
        Unmarshal (http.pending (http.Body rq)) decode.zero = (rb, None) ->
        Patterns_lookup wp pattern (decode.object rb) = Some handler ->
        let st := Patterns.getObjectHandlerFunc Unmarshal wp pattern (arrive rq s0) in
        resp st = outcome (snd (handler rb s0))
        /\ host st = fst (handler rb s0)
        /\ invoked st = [rb]).
Proof.
  split; [reflexivity|]. split; [reflexivity|]. split.
  - intros ws rq s0 rb Hin.
    destruct (Root_invoked ws rq s0 rb Hin) as (handler & Hreg & Hrun).
    exists handler. split; [exact Hreg|]. now rewrite Hrun.
  - intros wp pattern rq s0 rb handler Hpost Hread Hsig Hdec Hreg st. subst st.
    rewrite (Patterns_dispatch wp pattern rq s0 rb handler) by assumption.
    repeat split.
Qed.
End DeliveryClaims.

(** ** The claims on sample deliveries *)

Lemma Sample_Unmarshal_rejects_empty :
  forall request, snd (Sample.Unmarshal [] request) <> None.
Proof. intros request. discriminate. Qed.

Lemma bad_signature_forbidden_witness :
  let rq := Sample.post ["sha1=0000"]
              {| http.pending := Sample.body; http.failure := None |} in
  resp (Root.rootHandlerFunc Sample.Unmarshal
          (Root.NewServer "s3cret" "access" "t0ken") (arrive rq 0))
  = {| http.wroteHeader := true; http.status := 403; http.written := [] |}
  /\ resp (Patterns.getObjectHandlerFunc Sample.Unmarshal
             (Patterns.HandleObjectFunc (Patterns.NewServer "s3cret" "access" "t0ken")
                "/events" "page" Sample.accept)
             "/events" (arrive rq 0))
     = {| http.wroteHeader := true; http.status := 403; http.written := [] |}.
Proof.
  intros rq.
  destruct (bad_signature_forbidden Sample.Unmarshal
              (Root.NewServer "s3cret" "access" "t0ken")
              (Patterns.HandleObjectFunc (Patterns.NewServer "s3cret" "access" "t0ken")
                 "/events" "page" Sample.accept)
              "/events" rq 0 eq_refl eq_refl) as [Hroot Hpat].
  split.
  - refine (f_equal resp (Hroot _)). vm_compute. discriminate.
  - refine (f_equal resp (Hpat _)). vm_compute. discriminate.
Defined.

Lemma Root_signed_post_refused_witness :
  verifySignature (http.Get (http.Header Sample.signedPost) "X-Hub-Signature")
    "s3cret" Sample.body = None
  /\ Sample.Unmarshal Sample.body decode.zero
     = ({| decode.object := "page"; decode.Entry := [] |}, None)
  /\ http.status
       (resp (Root.rootHandlerFunc Sample.Unmarshal
                (Root.NewServer "s3cret" "access" "t0ken")
                (arrive Sample.signedPost 0))) = 400.
Proof.
  assert (verifySignature (http.Get (http.Header Sample.signedPost) "X-Hub-Signature")
            "s3cret" Sample.body = None) as Hsig by (vm_compute; reflexivity).
  assert (Sample.Unmarshal Sample.body decode.zero
          = ({| decode.object := "page"; decode.Entry := [] |}, None)) as Hdec
    by (vm_compute; reflexivity).
  split; [exact Hsig|]. split; [exact Hdec|].
  destruct (Root_signed_post_refused Sample.Unmarshal
              (Root.NewServer "s3cret" "access" "t0ken") Sample.signedPost 0
              {| decode.object := "page"; decode.Entry := [] |}
              Sample_Unmarshal_rejects_empty eq_refl eq_refl Hsig Hdec eq_refl)
    as (Hresp & _ & _).
  rewrite Hresp. reflexivity.
Defined.

Lemma Root_override_not_dispatched_witness :
  let ws := Root.HandleObjectFunc
              (Root.HandleObjectFunc (Root.NewServer "s3cret" "access" "t0ken")
                 "page" Sample.accept)
              "page" Sample.reject in
  Root_lookup ws "page" = Some Sample.reject
  /\ Root.rootHandlerFunc Sample.Unmarshal ws (arrive Sample.signedPost 0)
     = {| resp := {| http.wroteHeader := true; http.status := 400; http.written := [] |};
          req := drained Sample.signedPost; host := 0; invoked := [] |}.
Proof.
  intros ws.
  assert (verifySignature (http.Get (http.Header Sample.signedPost) "X-Hub-Signature")
            "s3cret" Sample.body = None) as Hsig by (vm_compute; reflexivity).
  assert (Sample.Unmarshal Sample.body decode.zero
          = ({| decode.object := "page"; decode.Entry := [] |}, None)) as Hdec
    by (vm_compute; reflexivity).
  destruct (Root_override_not_dispatched Sample.Unmarshal
              (Root.NewServer "s3cret" "access" "t0ken") "page"
              Sample.accept Sample.reject Sample.signedPost 0
              {| decode.object := "page"; decode.Entry := [] |}
              Sample_Unmarshal_rejects_empty eq_refl eq_refl Hsig Hdec eq_refl)
    as (Hreg & _ & Hrun).
  split; [exact Hreg|exact Hrun].
Defined.

Lemma handler_result_decides_status_witness :
  let rb := {| decode.object := "page"; decode.Entry := [] |} in
  let serve (h : Callback Sample.World) :=
    Patterns.getObjectHandlerFunc Sample.Unmarshal
      (Patterns.HandleObjectFunc (Patterns.NewServer "s3cret" "access" "t0ken")
         "/events" "page" h)
      "/events" (arrive Sample.signedPost 0) in
  (resp (serve Sample.reject)
   = {| http.wroteHeader := true; http.status := 400; http.written := [] |}
   /\ host (serve Sample.reject) = 1 /\ invoked (serve Sample.reject) = [rb])
  /\ (resp (serve Sample.accept)
      = {| http.wroteHeader := true; http.status := 200; http.written := [] |}
      /\ host (serve Sample.accept) = 1 /\ invoked (serve Sample.accept) = [rb]).
Proof.
  intros rb serve.
  assert (verifySignature (http.Get (http.Header Sample.signedPost) "X-Hub-Signature")
            "s3cret" Sample.body = None) as Hsig by (vm_compute; reflexivity).
  assert (Sample.Unmarshal Sample.body decode.zero = (rb, None)) as Hdec
    by (vm_compute; reflexivity).
  destruct (handler_result_decides_status (World := Sample.World) Sample.Unmarshal)
    as (_ & _ & _ & Hpat).
  split.
  - exact (Hpat (Patterns.HandleObjectFunc (Patterns.NewServer "s3cret" "access" "t0ken")
                   "/events" "page" Sample.reject)
             "/events" Sample.signedPost 0 rb Sample.reject
             eq_refl eq_refl Hsig Hdec eq_refl).
  - exact (Hpat (Patterns.HandleObjectFunc (Patterns.NewServer "s3cret" "access" "t0ken")
                   "/events" "page" Sample.accept)
             "/events" Sample.signedPost 0 rb Sample.accept
             eq_refl eq_refl Hsig Hdec eq_refl).
Defined.

(** The pattern-keyed variant on the same delivery: 200 without a handler,
    and the second of two registered callbacks once there is one. *)
Example Patterns_sample_deliveries :
  resp (Patterns.getObjectHandlerFunc Sample.Unmarshal
          (Patterns.NewServer "s3cret" "access" "t0ken") "/events"
          (arrive Sample.signedPost 0))
  = {| http.wroteHeader := true; http.status := 200; http.written := [] |}
  /\ invoked (Patterns.getObjectHandlerFunc Sample.Unmarshal
                (Patterns.HandleObjectFunc
                   (Patterns.HandleObjectFunc
                      (Patterns.NewServer "s3cret" "access" "t0ken")
                      "/events" "page" Sample.accept)
                   "/events" "page" Sample.reject)
                "/events" (arrive Sample.signedPost 0))
     = [{| decode.object := "page"; decode.Entry := [] |}].
Proof. split; vm_compute; reflexivity. Qed.

(** The three ways verification fails, one response. *)
Example three_failures_one_response :
  let ws := Root.NewServer (World := Sample.World) "s3cret" "access" "t0ken" in
  let payload := {| http.pending := Sample.body; http.failure := None |} in
  let forbidden :=
    {| http.wroteHeader := true; http.status := 403; http.written := [] |} in
  verifySignature EmptyString "s3cret" Sample.body = MissingSignature
  /\ verifySignature "sha1" "s3cret" Sample.body = MalformedSignature
  /\ verifySignature "sha1=0000" "s3cret" Sample.body = SignatureMismatch
  /\ resp (Root.rootHandlerFunc Sample.Unmarshal ws
             (arrive (Sample.post [] payload) 0)) = forbidden
  /\ resp (Root.rootHandlerFunc Sample.Unmarshal ws
             (arrive (Sample.post ["sha1"] payload) 0)) = forbidden
  /\ resp (Root.rootHandlerFunc Sample.Unmarshal ws
             (arrive (Sample.post ["sha1=0000"] payload) 0)) = forbidden.
Proof. repeat split; vm_compute; reflexivity. Qed.

(** * Further properties of the code *)

(** ** The shape of the digest *)

Lemma EncodeToString_length (src : list byte) :
  String.length (hex.EncodeToString src) = 2 * length src.
Proof. induction src as [|v rest IH]; simpl; [reflexivity|]. rewrite IH. lia. Qed.

Lemma digit_lowerHex (n : Z) : occurs (hex.digit n) hex.hextable = true.
Proof.
  unfold hex.digit.
  destruct (Z.to_nat n) as [|[|[|[|[|[|[|[|[|[|[|[|[|[|[|[|k]]]]]]]]]]]]]]]];
    reflexivity.
Qed.

Lemma EncodeToString_lowerHex (src : list byte) :
  lowerHex (hex.EncodeToString src) = true.
Proof.
  induction src as [|v rest IH]; [reflexivity|].
  cbn [hex.EncodeToString lowerHex].
  now rewrite !digit_lowerHex, IH.
Qed.

Lemma block_length (hs p : list Z) : length hs = 5 -> length (sha1.block hs p) = 5.
Proof.
  intros Hlen.
  destruct hs as [|h0 [|h1 [|h2 [|h3 [|h4 [|h5 hs]]]]]]; try discriminate Hlen.
  unfold sha1.block.
  destruct (sha1.rounds 0 (sha1.schedule p) (h0, h1, h2, h3, h4)) as [[[[a b] c] d] e].
  reflexivity.
Qed.

Lemma WriteByte_length (d : sha1.digest) (b : Z) :
  length (sha1.h d) = 5 -> length (sha1.h (sha1.WriteByte d b)) = 5.
Proof.
  intros Hlen. unfold sha1.WriteByte.
  destruct (Nat.eqb _ _); simpl; [now apply block_length|exact Hlen].
Qed.

Lemma Write_length (p : list Z) (d : sha1.digest) :
  length (sha1.h d) = 5 -> length (sha1.h (sha1.Write d p)) = 5.
Proof.
  unfold sha1.Write. revert d.
  induction p as [|b rest IH]; intros d Hlen; simpl; [exact Hlen|].
  apply IH. now apply WriteByte_length.
Qed.

Lemma checkSum_length (d : sha1.digest) :
  length (sha1.h d) = 5 -> length (sha1.checkSum d) = 20.
Proof.
  intros Hlen. unfold sha1.checkSum.
  pose proof (Write_length
                (((128 :: repeat 0 (Z.to_nat
                     (if (sha1.len d mod 64 <? 56)%Z
                      then (56 - sha1.len d mod 64)%Z
                      else (64 + 56 - sha1.len d mod 64)%Z) - 1))%Z)
                 ++ sha1.PutUint64
                      (Z.land (Z.shiftl (sha1.len d) 3) 18446744073709551615))
                d Hlen) as Hout.
  destruct (sha1.h (sha1.Write d _)) as [|h0 [|h1 [|h2 [|h3 [|h4 [|h5 hs]]]]]];
    try discriminate Hout.
  reflexivity.
Qed.

Lemma hmacSHA1_length (secret : string) (body : list byte) :
  length (hmacSHA1 secret body) = 20.
Proof.
  unfold hmacSHA1, hmac.Sum, sha1.Sum.
  rewrite !app_nil_l, length_map.
  apply checkSum_length. apply Write_length. apply Write_length. reflexivity.
Qed.

(** The digest [verifySignature] compares with is always forty lower-case
    hex digits, for every secret (the empty one too) and every body. *)
Lemma digest_forty_hex_digits (secret : string) (body : list byte) :
  String.length (hexHMACSHA1 secret body) = 40
  /\ lowerHex (hexHMACSHA1 secret body) = true.
Proof.
  split.
  - unfold hexHMACSHA1. rewrite EncodeToString_length.
    fold (hmacSHA1 secret body). now rewrite hmacSHA1_length.
  - apply EncodeToString_lowerHex.
Qed.

(** ** More on [verifySignature] *)

(** X1: the result of [verifySignature] is [nil] or one of its three
    errors, and it is the mismatch error exactly when the header is not
    empty, contains ['='], and its second field differs from the digest. *)
Theorem verifySignature_mismatch_iff (sig secret : string) (payload : list byte) :
  (verifySignature sig secret payload = None
   \/ verifySignature sig secret payload = MissingSignature
   \/ verifySignature sig secret payload = MalformedSignature
   \/ verifySignature sig secret payload = SignatureMismatch)
  /\ (verifySignature sig secret payload = SignatureMismatch
      <-> occurs "=" sig = true
          /\ upTo "=" (afterFirst "=" sig) <> hexHMACSHA1 secret payload).
Proof.
  rewrite verifySignature_cases.
  destruct (decide (sig = EmptyString)) as [->|Hne].
  - split; [tauto|]. split; [discriminate|]. intros [Hocc _]. discriminate Hocc.
  - destruct (occurs "=" sig).
    + destruct (decide (upTo "=" (afterFirst "=" sig) = hexHMACSHA1 secret payload))
        as [Heq|Hneq].
      * split; [tauto|]. split; [discriminate|]. intros [_ Hd]. contradiction.
      * split; [tauto|]. split; [intros _; split; [reflexivity|exact Hneq]|reflexivity].
    + split; [tauto|]. split; [discriminate|]. intros [Hocc _]. discriminate Hocc.
Qed.

(** X2: a header whose hash part is not forty lower-case hex digits never
    verifies, whatever the secret and the body: an upper-case or truncated
    digest, or no digest at all, gives the mismatch error. *)
Theorem verifySignature_rejects_other_shapes
    (sig secret : string) (payload : list byte) :
  occurs "=" sig = true ->
  String.length (upTo "=" (afterFirst "=" sig)) <> 40
  \/ lowerHex (upTo "=" (afterFirst "=" sig)) = false ->
  verifySignature sig secret payload = SignatureMismatch.
Proof.
  intros Hocc Hshape.
  apply verifySignature_mismatch_iff. split; [exact Hocc|].
  intros Heq. rewrite Heq in Hshape.
  destruct (digest_forty_hex_digits secret payload) as [Hlen Hhex].
  destruct Hshape as [Hs|Hs]; [contradiction|congruence].
Qed.

Lemma verifySignature_rejects_other_shapes_witness :
  verifySignature "sha1=24F663B1239E358A3F85E9A31FDBC75BA7A024B1" "s3cret" Sample.body
  = SignatureMismatch
  /\ verifySignature "sha1=" "s3cret" Sample.body = SignatureMismatch.
Proof.
  split.
  - apply (verifySignature_rejects_other_shapes
             "sha1=24F663B1239E358A3F85E9A31FDBC75BA7A024B1" "s3cret" Sample.body).
    + reflexivity.
    + right. reflexivity.
  - apply (verifySignature_rejects_other_shapes "sha1=" "s3cret" Sample.body).
    + reflexivity.
    + left. simpl. discriminate.
Defined.

(** X3: the header signed for a body [B] verifies against another body
    [B'] (or under another secret [S']) exactly when the two digests
    coincide; otherwise the result is the mismatch error. *)
Theorem verify_other_body (B B' : list byte) (S S' : string) :
  (verifySignature (sign B S) S' B' = None
   <-> hexHMACSHA1 S B = hexHMACSHA1 S' B')
  /\ (hexHMACSHA1 S B <> hexHMACSHA1 S' B' ->
      verifySignature (sign B S) S' B' = SignatureMismatch).
Proof.
  assert (occurs "=" (sign B S) = true) as Hocc by reflexivity.
  assert (upTo "=" (afterFirst "=" (sign B S)) = hexHMACSHA1 S B) as Hfield.
  { change (afterFirst "=" (sign B S)) with (hexHMACSHA1 S B).
    apply upTo_absent, hexHMACSHA1_no_separator. }
  split.
  - rewrite verifySignature_cases, Hocc, Hfield.
    destruct (decide (sign B S = EmptyString)) as [He|_]; [discriminate He|].
    destruct (decide (hexHMACSHA1 S B = hexHMACSHA1 S' B')); split;
      intros; try assumption; try reflexivity; try discriminate; contradiction.
  - intros Hneq. apply verifySignature_mismatch_iff.
    split; [exact Hocc|]. now rewrite Hfield.
Qed.

Lemma verify_other_body_witness :
  verifySignature (sign Sample.body "s3cret") "s3cret" (bytes_of_string "{}")
  = SignatureMismatch.
Proof.
  apply (verify_other_body Sample.body (bytes_of_string "{}") "s3cret" "s3cret").
  vm_compute. discriminate.
Defined.

(** X4: what follows a second ['='] is never looked at.  A header made of
    a tag without ['='], the correct digest and any further text after
    another ['='] verifies. *)
Theorem verifySignature_ignores_trailing (p t S : string) (B : list byte) :
  occurs "=" p = false ->
  verifySignature (p +:+ "=" +:+ hexHMACSHA1 S B +:+ "=" +:+ t) S B = None.
Proof.
  intros Hp.
  change (p +:+ "=" +:+ hexHMACSHA1 S B +:+ "=" +:+ t)
    with (p +:+ String "=" (hexHMACSHA1 S B +:+ String "=" t)).
  rewrite verifySignature_cases.
  destruct (decide (_ = EmptyString)) as [He|_]; [destruct p; discriminate He|].
  rewrite occurs_append.
  assert (occurs "=" (String "=" (hexHMACSHA1 S B +:+ String "=" t)) = true) as ->
    by reflexivity.
  rewrite orb_true_r.
  rewrite afterFirst_append by exact Hp.
  assert (upTo "=" (hexHMACSHA1 S B +:+ String "=" t) = hexHMACSHA1 S B) as ->.
  { pose proof (hexHMACSHA1_no_separator S B) as Hno.
    induction (hexHMACSHA1 S B) as [|a rest IH]; simpl in *.
    - reflexivity.
    - destruct (Ascii.eqb a "="); [discriminate|]. now rewrite IH. }
  destruct (decide (hexHMACSHA1 S B = hexHMACSHA1 S B)); [reflexivity|contradiction].
Qed.

Lemma verifySignature_ignores_trailing_witness :
  verifySignature ("sha1" +:+ "=" +:+ hexHMACSHA1 "s3cret" Sample.body +:+ "=" +:+ "junk")
    "s3cret" Sample.body = None.
Proof.
  apply (verifySignature_ignores_trailing "sha1" "junk" "s3cret" Sample.body).
  reflexivity.
Defined.

(** ** [strings.Split] and [hex.EncodeToString] *)

Lemma Split_nonempty (s : string) (sep : ascii) : gostrings.Split s sep <> [].
Proof. rewrite Split_fields. discriminate. Qed.

(** X5: [strings.Split] loses nothing.  The fields contain no separator,
    there is one more field than separators, and joining the fields with
    the separator gives the string back. *)
Theorem Split_join (s : string) (sep : ascii) :
  Forall (fun field => occurs sep field = false) (gostrings.Split s sep)
  /\ length (gostrings.Split s sep) = S (count sep s)
  /\ String.concat (String sep EmptyString) (gostrings.Split s sep) = s.
Proof.
  split; [|split; [apply Split_length|]].
  - induction s as [|a rest IH]; simpl.
    + constructor; [reflexivity|constructor].
    + destruct (Ascii.eqb a sep) eqn:Ha.
      * constructor; [reflexivity|exact IH].
      * destruct (gostrings.Split rest sep) as [|hd tl]; simpl.
        -- constructor; [simpl; now rewrite Ha|constructor].
        -- inversion IH as [|? ? Hhd Htl]; subst.
           constructor; [simpl; now rewrite Ha|exact Htl].
  - induction s as [|a rest IH]; simpl; [reflexivity|].
    pose proof (Split_nonempty rest sep) as Hne.
    destruct (Ascii.eqb a sep) eqn:Ha.
    + apply Ascii.eqb_eq in Ha. subst a.
      destruct (gostrings.Split rest sep) as [|hd tl]; [contradiction|].
      simpl in *. now rewrite IH.
    + destruct (gostrings.Split rest sep) as [|hd tl]; [contradiction|].
      destruct tl as [|hd' tl']; simpl in *; now rewrite <- IH.
Qed.

Lemma byte_val_range (v : byte) : (0 <= byte_val v < 256)%Z.
Proof. unfold byte_val. pose proof (Byte.to_N_bounded v). lia. Qed.

Lemma byte_val_inj (v1 v2 : byte) : byte_val v1 = byte_val v2 -> v1 = v2.
Proof.
  unfold byte_val. intros Heq.
  assert (Byte.to_N v1 = Byte.to_N v2) as HN by lia.
  pose proof (Byte.of_to_N v1) as H1. pose proof (Byte.of_to_N v2) as H2.
  rewrite HN in H1. congruence.
Qed.

Lemma byte_val_of_val (z : Z) : (0 <= z < 256)%Z -> byte_val (byte_of_val z) = z.
Proof.
  intros Hz. unfold byte_of_val, byte_val.
  rewrite Z.mod_small by exact Hz.
  destruct (Byte.of_N (Z.to_N z)) as [b|] eqn:Hb.
  - apply Byte.to_of_N in Hb. rewrite Hb. lia.
  - apply Byte.of_N_None_iff in Hb. lia.
Qed.

Lemma digit_inj (a b : Z) :
  (0 <= a < 16)%Z -> (0 <= b < 16)%Z -> hex.digit a = hex.digit b -> a = b.
Proof.
  intros Ha Hb.
  assert (exists n, n < 16 /\ a = Z.of_nat n) as (n & Hn & ->)
    by (exists (Z.to_nat a); lia).
  assert (exists m, m < 16 /\ b = Z.of_nat m) as (m & Hm & ->)
    by (exists (Z.to_nat b); lia).
  unfold hex.digit. rewrite !Nat2Z.id. intros Hd. f_equal.
  do 16 (destruct n as [|n]; [do 16 (destruct m as [|m];
    [first [reflexivity | discriminate Hd]|]); lia|]); lia.
Qed.

Lemma byte_val_nibbles (v : byte) :
  byte_val v = (16 * Z.shiftr (byte_val v) 4 + Z.land (byte_val v) 15)%Z.
Proof.
  rewrite Z.shiftr_div_pow2 by lia.
  change 15%Z with (Z.ones 4). rewrite Z.land_ones by lia.
  change (2 ^ 4)%Z with 16%Z. apply Z.div_mod. lia.
Qed.

Lemma EncodeToString_inj (a b : list byte) :
  hex.EncodeToString a = hex.EncodeToString b -> a = b.
Proof.
  revert b. induction a as [|v rest IH]; intros [|w rest'] Heq;
    try reflexivity; try discriminate Heq.
  simpl in Heq. injection Heq as Hhi Hlo Hrest.
  pose proof (byte_val_range v) as Hv. pose proof (byte_val_range w) as Hw.
  assert (Z.shiftr (byte_val v) 4 = Z.shiftr (byte_val w) 4) as Hhi'.
  { apply digit_inj; [| |exact Hhi]; rewrite Z.shiftr_div_pow2 by lia;
      change (2 ^ 4)%Z with 16%Z;
      (split; [apply Z.div_pos; lia|apply Z.div_lt_upper_bound; lia]). }
  assert (Z.land (byte_val v) 15 = Z.land (byte_val w) 15) as Hlo'.
  { apply digit_inj; [| |exact Hlo]; change 15%Z with (Z.ones 4);
      rewrite Z.land_ones by lia; apply Z.mod_pos_bound; lia. }
  f_equal; [|now apply IH].
  apply byte_val_inj. rewrite (byte_val_nibbles v), (byte_val_nibbles w). lia.
Qed.

(** X6: the hex encoding is one to one, so the comparison of strings in
    [verifySignature] is a comparison of digests.  A header carrying the hex
    encoding of a byte string [d] verifies exactly when [d] is the HMAC-SHA1
    of the body under the secret. *)
Theorem verifySignature_compares_digests
    (p secret : string) (d payload : list byte) :
  occurs "=" p = false ->
  (verifySignature (p +:+ "=" +:+ hex.EncodeToString d) secret payload = None
   <-> d = hmacSHA1 secret payload).
Proof.
  intros Hp.
  change (p +:+ "=" +:+ hex.EncodeToString d)
    with (p +:+ String "=" (hex.EncodeToString d)).
  rewrite verifySignature_cases.
  destruct (decide (_ = EmptyString)) as [He|_]; [destruct p; discriminate He|].
  rewrite occurs_append.
  assert (occurs "=" (String "=" (hex.EncodeToString d)) = true) as -> by reflexivity.
  rewrite orb_true_r, afterFirst_append by exact Hp.
  rewrite upTo_absent by apply EncodeToString_no_separator.
  unfold hexHMACSHA1. fold (hmacSHA1 secret payload).
  destruct (decide (hex.EncodeToString d = hex.EncodeToString (hmacSHA1 secret payload)))
    as [Heq|Hneq].
  - split; [intros _; now apply EncodeToString_inj|reflexivity].
  - split; [discriminate|]. intros ->. contradiction.
Qed.

Lemma verifySignature_compares_digests_witness :
  verifySignature ("sha1" +:+ "=" +:+ hex.EncodeToString (hmacSHA1 "s3cret" Sample.body))
    "s3cret" Sample.body = None.
Proof.
  apply (verifySignature_compares_digests "sha1" "s3cret"
           (hmacSHA1 "s3cret" Sample.body) Sample.body).
  - reflexivity.
  - reflexivity.
Defined.

(** ** Secrets as HMAC keys *)

Lemma bytes_of_string_app (s t : string) :
  bytes_of_string (s +:+ t) = bytes_of_string s ++ bytes_of_string t.
Proof.
  unfold bytes_of_string, list_byte_of_string.
  induction s as [|a rest IH]; simpl; [reflexivity|]. f_equal. exact IH.
Qed.

Lemma bytes_of_string_length (s : string) :
  length (bytes_of_string s) = String.length s.
Proof.
  unfold bytes_of_string, list_byte_of_string.
  induction s as [|a rest IH]; simpl; [reflexivity|]. f_equal. exact IH.
Qed.

Lemma New_zero_padded (key : list byte) :
  length key < 64 -> hmac.New (key ++ [x00]) = hmac.New key.
Proof.
  intros Hlen. unfold hmac.New.
  rewrite map_app. cbn [map]. change (byte_val x00) with 0%Z.
  rewrite !length_app, !length_map. cbn [length].
  assert (Nat.ltb sha1.BlockSize (length key + 1) = false) as ->
    by (apply Nat.ltb_ge; unfold sha1.BlockSize; lia).
  assert (Nat.ltb sha1.BlockSize (length key) = false) as ->
    by (apply Nat.ltb_ge; unfold sha1.BlockSize; lia).
  assert (forall c, hmac.pad (map byte_val key ++ [0%Z]) c = hmac.pad (map byte_val key) c)
    as Hpad.
  { intros c. unfold hmac.pad. f_equal.
    rewrite length_app, length_map. cbn [length]. rewrite <- app_assoc. f_equal.
    unfold sha1.BlockSize.
    replace (64 - length key) with (S (64 - (length key + 1))) by lia.
    reflexivity. }
  now rewrite !Hpad.
Qed.

(** X7: HMAC pads the key with zero bytes up to the block size, so a secret
    shorter than 64 bytes and the same secret followed by a zero byte are
    one key: [verifySignature] gives the same result under both, for every
    header and body. *)
Theorem verifySignature_zero_padded_secret
    (sig secret : string) (payload : list byte) :
  String.length secret < 64 ->
  verifySignature sig (secret +:+ String Ascii.zero EmptyString) payload
  = verifySignature sig secret payload.
Proof.
  intros Hlen. unfold verifySignature.
  rewrite bytes_of_string_app.
  change (bytes_of_string (String Ascii.zero EmptyString)) with [x00].
  rewrite New_zero_padded by (now rewrite bytes_of_string_length).
  reflexivity.
Qed.

Lemma verifySignature_zero_padded_secret_witness :
  verifySignature (sign Sample.body "s3cret")
    ("s3cret" +:+ String Ascii.zero EmptyString) Sample.body = None.
Proof.
  rewrite (verifySignature_zero_padded_secret (sign Sample.body "s3cret")
             "s3cret" Sample.body).
  - vm_compute. reflexivity.
  - vm_compute. lia.
Defined.

Lemma PutUint32_range (v : Z) : Forall (fun z => (0 <= z < 256)%Z) (sha1.PutUint32 v).
Proof.
  unfold sha1.PutUint32. cbn [map].
  repeat constructor;
    change 255%Z with (Z.ones 8); rewrite Z.land_ones by lia;
    apply Z.mod_pos_bound; lia.
Qed.

Lemma checkSum_range (d : sha1.digest) :
  Forall (fun z => (0 <= z < 256)%Z) (sha1.checkSum d).
Proof.
  unfold sha1.checkSum. generalize (sha1.h (sha1.Write d
    ((128 :: repeat 0 (Z.to_nat
        (if (sha1.len d mod 64 <? 56)%Z
         then (56 - sha1.len d mod 64)%Z
         else (64 + 56 - sha1.len d mod 64)%Z) - 1))%Z
     ++ sha1.PutUint64 (Z.land (Z.shiftl (sha1.len d) 3) 18446744073709551615)))).
  intros hs. induction hs as [|w rest IH]; [constructor|].
  cbn [flat_map]. apply Forall_app. split; [apply PutUint32_range|exact IH].
Qed.

Lemma byte_val_of_val_map (l : list Z) :
  Forall (fun z => (0 <= z < 256)%Z) l -> map byte_val (map byte_of_val l) = l.
Proof.
  induction 1 as [|z rest Hz _ IH]; [reflexivity|].
  cbn [map]. now rewrite byte_val_of_val, IH.
Qed.

Lemma New_long_key (key : list byte) :
  64 < length key -> hmac.New key = hmac.New (sha1Sum key).
Proof.
  intros Hlen. unfold hmac.New, sha1Sum.
  rewrite !length_map.
  assert (Nat.ltb sha1.BlockSize (length key) = true) as ->
    by (apply Nat.ltb_lt; unfold sha1.BlockSize; lia).
  unfold sha1.Sum. cbn [app].
  rewrite byte_val_of_val_map by apply checkSum_range.
  rewrite checkSum_length by (apply Write_length; reflexivity).
  reflexivity.
Qed.

(** X8: a key longer than the 64-byte block is replaced by its SHA-1
    digest.  So a secret of more than 64 bytes and the 20 bytes of its
    SHA-1 digest, taken as a secret, are one key: [verifySignature] gives
    the same result under both. *)
Theorem verifySignature_long_secret
    (sig secret : string) (payload : list byte) :
  64 < String.length secret ->
  verifySignature sig (string_of_bytes (sha1Sum (bytes_of_string secret))) payload
  = verifySignature sig secret payload.
Proof.
  intros Hlen. unfold verifySignature.
  assert (hmac.New (bytes_of_string (string_of_bytes (sha1Sum (bytes_of_string secret))))
          = hmac.New (bytes_of_string secret)) as ->; [|reflexivity].
  assert (bytes_of_string (string_of_bytes (sha1Sum (bytes_of_string secret)))
          = sha1Sum (bytes_of_string secret)) as ->
    by apply list_byte_of_string_of_list_byte.
  symmetry. apply New_long_key. now rewrite bytes_of_string_length.
Qed.

Lemma verifySignature_long_secret_witness :
  let secret :=
    "0123456789abcdef0123456789abcdef0123456789abcdef0123456789abcdef0123456789" in
  verifySignature ("sha1" +:+ String "=" (hexHMACSHA1 secret Sample.body))
    (string_of_bytes (sha1Sum (bytes_of_string secret))) Sample.body = None.
Proof.
  intros secret.
  rewrite (verifySignature_long_secret
             ("sha1" +:+ String "=" (hexHMACSHA1 secret Sample.body))
             secret Sample.body)
    by (vm_compute; lia).
  exact (verifySignature_accepts "sha1" secret Sample.body eq_refl).
Defined.

(** ** Requests the handlers turn away *)
Section Refusals.
Context {World : Type} (Unmarshal : Decoder).

(** X9: a method the handler does not serve is answered 403 with no body,
    the request body is not read and no callback runs.  For
    [rootHandlerFunc] that is every method but GET and POST; in the
    pattern-keyed variant [webhookHandlerFunc] refuses everything but GET
    (POST too) and the object handlers everything but POST (GET too). *)
Theorem other_methods_forbidden
    (ws : Root.Server (World := World)) (wp : Patterns.Server (World := World))
    (pattern : string) (rq : http.Request) (s0 : World) :
  let forbidden :=
    {| resp := {| http.wroteHeader := true; http.status := 403; http.written := [] |};
       req := rq; host := s0; invoked := [] |} in
  (http.Method rq <> http.MethodGet -> http.Method rq <> http.MethodPost ->
   Root.rootHandlerFunc Unmarshal ws (arrive rq s0) = forbidden)
  /\ (http.Method rq <> http.MethodGet ->
      Patterns.webhookHandlerFunc wp (arrive rq s0) = forbidden)
  /\ (http.Method rq <> http.MethodPost ->
      Patterns.getObjectHandlerFunc Unmarshal wp pattern (arrive rq s0) = forbidden).
Proof.
  intros forbidden. repeat split.
  - intros Hget Hpost. unfold Root.rootHandlerFunc. simpl req.
    destruct (decide (http.Method rq = http.MethodGet)); [contradiction|].
    destruct (decide (http.Method rq = http.MethodPost)); [contradiction|].
    reflexivity.
  - intros Hget. unfold Patterns.webhookHandlerFunc. simpl req.
    destruct (decide (http.Method rq = http.MethodGet)); [contradiction|].
    reflexivity.
  - intros Hpost. unfold Patterns.getObjectHandlerFunc. simpl req.
    destruct (decide (http.Method rq = http.MethodPost)); [contradiction|].
    reflexivity.
Qed.

(** X10: a GET whose query does not parse is answered 400 with no body,
    whatever [r.Form] holds, by both handshake handlers. *)
Theorem unparsable_query_bad_request
    (ws : Root.Server (World := World)) (wp : Patterns.Server (World := World))
    (rq : http.Request) (s0 : World) :
  http.Method rq = http.MethodGet ->
  http.ParseForm rq <> None ->
  let bad :=
    {| resp := {| http.wroteHeader := true; http.status := 400; http.written := [] |};
       req := rq; host := s0; invoked := [] |} in
  Root.rootHandlerFunc Unmarshal ws (arrive rq s0) = bad
  /\ Patterns.webhookHandlerFunc wp (arrive rq s0) = bad.
Proof.
  intros Hget Herr bad.
  unfold Root.rootHandlerFunc, Patterns.webhookHandlerFunc. simpl req.
  destruct (decide (http.Method rq = http.MethodGet)); [|contradiction].
  destruct (http.ParseForm rq); [|contradiction]. split; reflexivity.
Qed.

(** X11: a POST whose body cannot be read is answered 400 with no body
    before the signature is looked at, so even with a header that would
    verify; no callback runs.  Both variants. *)
Theorem unreadable_body_bad_request
    (ws : Root.Server (World := World)) (wp : Patterns.Server (World := World))
    (pattern : string) (rq : http.Request) (s0 : World) :
  http.Method rq = http.MethodPost ->
  http.failure (http.Body rq) <> None ->
  let bad :=
    {| resp := {| http.wroteHeader := true; http.status := 400; http.written := [] |};
       req := drained rq; host := s0; invoked := [] |} in
  Root.rootHandlerFunc Unmarshal ws (arrive rq s0) = bad
  /\ Patterns.getObjectHandlerFunc Unmarshal wp pattern (arrive rq s0) = bad.
Proof.
  intros Hpost Herr bad.
  unfold Root.rootHandlerFunc, Patterns.getObjectHandlerFunc, ReadBody, http.ReadFrom.
  simpl. rewrite Hpost. simpl. subst bad. unfold drained, http.withBody.
  destruct (http.failure (http.Body rq)); [|contradiction]. split; reflexivity.
Qed.

(** X12: in the pattern-keyed variant a well-signed POST whose body the
    decoder rejects is answered 400 with no body, and no callback runs. *)
Theorem Patterns_undecodable_bad_request
    (wp : Patterns.Server (World := World)) (pattern : string)
    (rq : http.Request) (s0 : World) :
  http.Method rq = http.MethodPost ->
  http.failure (http.Body rq) = None ->
  verifySignature (http.Get (http.Header rq) "X-Hub-Signature")
    (Patterns.Secret wp) (http.pending (http.Body rq)) = None ->
  snd (Unmarshal (http.pending (http.Body rq)) decode.zero) <> None ->
  Patterns.getObjectHandlerFunc Unmarshal wp pattern (arrive rq s0)
  = {| resp := {| http.wroteHeader := true; http.status := 400; http.written := [] |};
       req := drained rq; host := s0; invoked := [] |}.
Proof.
  intros Hpost Hread Hsig Herr.
  rewrite Patterns_post by assumption. simpl.
  destruct (Unmarshal (http.pending (http.Body rq)) decode.zero) as [rb [e|]];
    [reflexivity|]. now contradiction Herr.
Qed.
End Refusals.

Lemma other_methods_forbidden_witness :
  let put :=
    {| http.Method := "PUT"; http.Header := ∅; http.Form := ∅; http.FormErr := None;
       http.Body := {| http.pending := Sample.body; http.failure := None |} |} in
  resp (Root.rootHandlerFunc Sample.Unmarshal
          (Root.NewServer "s3cret" "access" "t0ken") (arrive put 0))
  = {| http.wroteHeader := true; http.status := 403; http.written := [] |}
  /\ resp (Patterns.webhookHandlerFunc
             (Patterns.NewServer "s3cret" "access" "t0ken")
             (arrive Sample.signedPost 0))
     = {| http.wroteHeader := true; http.status := 403; http.written := [] |}.
Proof.
  intros put. split.
  - destruct (other_methods_forbidden Sample.Unmarshal
                (Root.NewServer "s3cret" "access" "t0ken")
                (Patterns.NewServer "s3cret" "access" "t0ken") "/events" put 0)
      as (Hroot & _ & _).
    refine (f_equal resp (Hroot _ _)); discriminate.
  - destruct (other_methods_forbidden Sample.Unmarshal
                (Root.NewServer "s3cret" "access" "t0ken")
                (Patterns.NewServer "s3cret" "access" "t0ken") "/events"
                Sample.signedPost 0)
      as (_ & Hhook & _).
    refine (f_equal resp (Hhook _)). discriminate.
Defined.

Lemma unparsable_query_bad_request_witness :
  let rq :=
    {| http.Method := http.MethodGet; http.Header := ∅;
       http.Form := {[ "hub.mode" := ["subscribe"]; "hub.verify_token" := ["t0ken"] ]};
       http.FormErr := errors.New "invalid URL escape";
       http.Body := {| http.pending := []; http.failure := None |} |} in
  resp (Root.rootHandlerFunc Sample.Unmarshal
          (Root.NewServer "s3cret" "access" "t0ken") (arrive rq 0))
  = {| http.wroteHeader := true; http.status := 400; http.written := [] |}.
Proof.
  intros rq.
  destruct (unparsable_query_bad_request Sample.Unmarshal
              (Root.NewServer "s3cret" "access" "t0ken")
              (Patterns.NewServer "s3cret" "access" "t0ken") rq 0)
    as (Hroot & _).
  - reflexivity.
  - discriminate.
  - exact (f_equal resp Hroot).
Defined.

Lemma unreadable_body_bad_request_witness :
  let rq := Sample.post [sign Sample.body "s3cret"]
              {| http.pending := Sample.body;
                 http.failure := errors.New "unexpected EOF" |} in
  resp (Patterns.getObjectHandlerFunc Sample.Unmarshal
          (Patterns.HandleObjectFunc (Patterns.NewServer "s3cret" "access" "t0ken")
             "/events" "page" Sample.accept)
          "/events" (arrive rq 0))
  = {| http.wroteHeader := true; http.status := 400; http.written := [] |}.
Proof.
  intros rq.
  destruct (unreadable_body_bad_request Sample.Unmarshal
              (Root.NewServer "s3cret" "access" "t0ken")
              (Patterns.HandleObjectFunc (Patterns.NewServer "s3cret" "access" "t0ken")
                 "/events" "page" Sample.accept)
              "/events" rq 0)
    as (_ & Hpat).
  - reflexivity.
  - discriminate.
  - exact (f_equal resp Hpat).
Defined.

Lemma Patterns_undecodable_bad_request_witness :
  let payload := bytes_of_string "{}" in
  let rq := Sample.post [sign payload "s3cret"]
              {| http.pending := payload; http.failure := None |} in
  resp (Patterns.getObjectHandlerFunc Sample.Unmarshal
          (Patterns.HandleObjectFunc (Patterns.NewServer "s3cret" "access" "t0ken")
             "/events" "page" Sample.accept)
          "/events" (arrive rq 0))
  = {| http.wroteHeader := true; http.status := 400; http.written := [] |}.
Proof.
  intros payload rq.
  refine (f_equal resp
            (Patterns_undecodable_bad_request Sample.Unmarshal
               (Patterns.HandleObjectFunc (Patterns.NewServer "s3cret" "access" "t0ken")
                  "/events" "page" Sample.accept)
               "/events" rq 0 eq_refl eq_refl _ _)).
  - vm_compute. reflexivity.
  - vm_compute. discriminate.
Defined.

(** ** What every run of a handler satisfies *)
Section Runs.
Context {World : Type} (Unmarshal : Decoder).

Lemma Root_run_cases (ws : Root.Server (World := World)) (rq : http.Request)
    (s0 : World) :
  let st := Root.rootHandlerFunc Unmarshal ws (arrive rq s0) in
  (http.Method rq = http.MethodGet
   /\ st = Write (arrive rq s0) (bytes_of_string (http.FormValue rq "hub.challenge")))
  \/ (exists code, (code = 400 \/ code = 403)
                   /\ st = WriteHeader (arrive rq s0) code)
  \/ (http.Method rq = http.MethodPost
      /\ exists code, (code = 400 \/ code = 403 \/ code = 200)
                      /\ st = WriteHeader (arrive (drained rq) s0) code)
  \/ (http.Method rq = http.MethodPost
      /\ exists rb handler,
           Unmarshal [] decode.zero = (rb, None)
           /\ st = answer (arrive (drained rq) s0) handler rb).
Proof.
  intros st. subst st.
  unfold Root.rootHandlerFunc, Root.parsePostRequestBody, ReadBody, http.ReadFrom.
  simpl.
  destruct (decide (http.Method rq = http.MethodGet)) as [Hget|_].
  { destruct (http.ParseForm rq).
    - right; left. exists 400. split; [tauto|reflexivity].
    - destruct (decide _).
      + left. split; [exact Hget|reflexivity].
      + right; left. exists 403. split; [tauto|reflexivity]. }
  destruct (decide (http.Method rq = http.MethodPost)) as [Hpost|_];
    [|right; left; exists 403; split; [tauto|reflexivity]].
  right; right.
  destruct (http.failure (http.Body rq)) eqn:Hread.
  { left. split; [exact Hpost|]. exists 400. split; [tauto|].
    unfold drained, http.withBody. rewrite Hread. reflexivity. }
  destruct (verifySignature _ _ _).
  { left. split; [exact Hpost|]. exists 403. split; [tauto|].
    unfold drained, http.withBody. rewrite Hread. reflexivity. }
  simpl.
  destruct (Unmarshal [] decode.zero) as [rb [e|]] eqn:Hdec.
  { left. split; [exact Hpost|]. exists 400. split; [tauto|].
    unfold drained, http.withBody. rewrite Hread. reflexivity. }
  destruct (index (Root.objectHandlers ws) (decode.object rb)) as [handler|].
  - right. split; [exact Hpost|]. exists rb, handler. split; [reflexivity|].
    unfold drained, http.withBody. rewrite Hread. reflexivity.
  - left. split; [exact Hpost|]. exists 200. split; [tauto|].
    unfold drained, http.withBody. rewrite Hread. reflexivity.
Qed.

(** X13: [rootHandlerFunc] always answers, with status 200, 400 or 403, at
    most one callback runs, and the only response with a body is the
    accepted handshake, whose body is the challenge. *)
Theorem Root_response_shape (ws : Root.Server (World := World))
    (rq : http.Request) (s0 : World) :
  let st := Root.rootHandlerFunc Unmarshal ws (arrive rq s0) in
  http.wroteHeader (resp st) = true
  /\ (http.status (resp st) = 200 \/ http.status (resp st) = 400
      \/ http.status (resp st) = 403)
  /\ length (invoked st) <= 1
  /\ (http.written (resp st) <> [] ->
      http.Method rq = http.MethodGet /\ http.status (resp st) = 200
      /\ http.written (resp st) = bytes_of_string (http.FormValue rq "hub.challenge")).
Proof.
  intros st. subst st.
  destruct (Root_run_cases ws rq s0)
    as [(Hget & ->)|[(code & Hcode & ->)|[(Hpost & code & Hcode & ->)
        |(Hpost & rb & handler & _ & ->)]]].
  - simpl. repeat split; try tauto; lia.
  - simpl. repeat split; try tauto; try lia;
      try (intros Hw; now contradiction Hw);
      destruct Hcode as [->| ->]; tauto.
  - simpl. repeat split; try tauto; try lia;
      try (intros Hw; now contradiction Hw);
      destruct Hcode as [->|[->| ->]]; tauto.
  - rewrite answer_outcome by reflexivity. simpl.
    destruct (snd (handler rb s0)); simpl; repeat split; try tauto; try lia;
      intros Hw; now contradiction Hw.
Qed.

(** X14: no run of [rootHandlerFunc] reaches a callback when the decoder
    rejects the empty input, as [json.Unmarshal] does: whatever the request
    and whatever is registered, nothing is invoked and the host is left as
    it was, and no POST is answered 200. *)
Theorem Root_never_dispatches (ws : Root.Server (World := World))
    (rq : http.Request) (s0 : World) :
  (forall request, snd (Unmarshal [] request) <> None) ->
  let st := Root.rootHandlerFunc Unmarshal ws (arrive rq s0) in
  invoked st = [] /\ host st = s0
  /\ (http.Method rq = http.MethodPost -> http.status (resp st) <> 200).
Proof.
  intros Hempty st. subst st. specialize (Hempty decode.zero).
  unfold Root.rootHandlerFunc, Root.parsePostRequestBody, ReadBody, http.ReadFrom.
  simpl.
  destruct (decide (http.Method rq = http.MethodGet)) as [Hget|_].
  { destruct (http.ParseForm rq); [|destruct (decide _)];
      (repeat split; intros Hpost; rewrite Hget in Hpost; discriminate Hpost). }
  destruct (decide (http.Method rq = http.MethodPost)) as [_|Hn];
    [|repeat split; intros Hpost; contradiction].
  destruct (http.failure (http.Body rq)); [repeat split; discriminate|].
  destruct (verifySignature _ _ _); [repeat split; discriminate|].
  simpl.
  destruct (Unmarshal [] decode.zero) as [rb [e|]]; [repeat split; discriminate|].
  now contradiction Hempty.
Qed.

(** X15: in the pattern-keyed variant a callback runs only for a POST whose
    body was read, whose signature verified over those bytes and whose
    decoded envelope has a handler under the pattern; it is that handler, it
    gets that envelope, and it runs once. *)
Theorem Patterns_invoked_only_verified
    (wp : Patterns.Server (World := World)) (pattern : string)
    (rq : http.Request) (s0 : World) (rb : decode.RequestBody) :
  In rb (invoked (Patterns.getObjectHandlerFunc Unmarshal wp pattern (arrive rq s0))) ->
  http.Method rq = http.MethodPost
  /\ http.failure (http.Body rq) = None
  /\ verifySignature (http.Get (http.Header rq) "X-Hub-Signature")
       (Patterns.Secret wp) (http.pending (http.Body rq)) = None
  /\ Unmarshal (http.pending (http.Body rq)) decode.zero = (rb, None)
  /\ exists handler,
       Patterns_lookup wp pattern (decode.object rb) = Some handler
       /\ Patterns.getObjectHandlerFunc Unmarshal wp pattern (arrive rq s0)
          = {| resp := outcome (snd (handler rb s0)); req := drained rq;
               host := fst (handler rb s0); invoked := [rb] |}.
Proof.
  intros Hin.
  destruct (decide (http.Method rq = http.MethodPost)) as [Hpost|Hn].
  2:{ exfalso. unfold Patterns.getObjectHandlerFunc in Hin. simpl req in Hin.
      destruct (decide (http.Method rq = http.MethodPost)); [contradiction|].
      exact Hin. }
  destruct (http.failure (http.Body rq)) as [e|] eqn:Hread.
  { exfalso. unfold Patterns.getObjectHandlerFunc, ReadBody, http.ReadFrom in Hin.
    simpl in Hin. rewrite Hpost, Hread in Hin. exact Hin. }
  destruct (verifySignature (http.Get (http.Header rq) "X-Hub-Signature")
              (Patterns.Secret wp) (http.pending (http.Body rq))) as [e|] eqn:Hsig.
  { exfalso. unfold Patterns.getObjectHandlerFunc, ReadBody, http.ReadFrom in Hin.
    simpl in Hin. rewrite Hpost, Hread in Hin. simpl in Hin.
    rewrite Hsig in Hin. exact Hin. }
  rewrite Patterns_post in Hin |- * by assumption.
  cbv zeta in Hin |- *.
  destruct (Unmarshal (http.pending (http.Body rq)) decode.zero) as [rb' [e|]] eqn:Hdec;
    [destruct Hin|].
  destruct (Patterns_lookup wp pattern (decode.object rb')) as [handler|] eqn:Hreg;
    [|destruct Hin].
  rewrite answer_outcome in Hin |- * by reflexivity.
  destruct Hin as [<-|[]].
  split; [exact Hpost|]. do 3 (split; [reflexivity|]).
  exists handler. split; [exact Hreg|reflexivity].
Qed.
End Runs.

Section PatternRuns.
Context {World : Type} (Unmarshal : Decoder).

(** X16: the handlers of the pattern-keyed variant always answer with
    status 200, 400 or 403.  [webhookHandlerFunc] never reads the request
    body, never runs a callback and leaves the host as it was; an object
    handler never writes a body and runs at most one callback. *)
Theorem Patterns_response_shape
    (wp : Patterns.Server (World := World)) (pattern : string)
    (rq : http.Request) (s0 : World) :
  let hook := Patterns.webhookHandlerFunc wp (arrive rq s0) in
  let st := Patterns.getObjectHandlerFunc Unmarshal wp pattern (arrive rq s0) in
  (http.wroteHeader (resp hook) = true
   /\ (http.status (resp hook) = 200 \/ http.status (resp hook) = 400
       \/ http.status (resp hook) = 403)
   /\ req hook = rq /\ host hook = s0 /\ invoked hook = [])
  /\ (http.wroteHeader (resp st) = true
      /\ (http.status (resp st) = 200 \/ http.status (resp st) = 400
          \/ http.status (resp st) = 403)
      /\ http.written (resp st) = []
      /\ length (invoked st) <= 1).
Proof.
  intros hook st. subst hook st. split.
  - unfold Patterns.webhookHandlerFunc. simpl req.
    destruct (decide (http.Method rq = http.MethodGet)).
    + destruct (http.ParseForm rq); [|destruct (decide _)]; simpl; tauto.
    + simpl. tauto.
  - unfold Patterns.getObjectHandlerFunc, ReadBody, http.ReadFrom. simpl.
    destruct (decide (http.Method rq = http.MethodPost));
      [|simpl; repeat split; try tauto; lia].
    destruct (http.failure (http.Body rq)); [simpl; repeat split; try tauto; lia|].
    destruct (verifySignature _ _ _); [simpl; repeat split; try tauto; lia|].
    destruct (Unmarshal (http.pending (http.Body rq)) decode.zero) as [rb [err|]];
      [simpl; repeat split; try tauto; lia|].
    destruct (index (Patterns.objectHandlers wp) pattern) as [m|];
      [|simpl; repeat split; try tauto; lia].
    destruct (index m (decode.object rb)) as [handler|];
      [|simpl; repeat split; try tauto; lia].
    rewrite answer_outcome by reflexivity. simpl.
    destruct (snd (handler rb s0)); simpl; repeat split; try tauto; lia.
Qed.

(** X17: [parsePostRequestBody] decodes what is left of the request body
    and leaves the body drained.  On an unread body it decodes the body; on
    a body that was read before it decodes the empty input; a read error
    is returned as it is, with the zero envelope. *)
Theorem parsePostRequestBody_reads_what_is_left (st : Exchange World) :
  let rest := http.pending (http.Body (req st)) in
  let st' := {| resp := resp st; req := drained (req st); host := host st;
                invoked := invoked st |} in
  (http.failure (http.Body (req st)) = None ->
   Root.parsePostRequestBody Unmarshal st
   = (fst (Unmarshal rest decode.zero), snd (Unmarshal rest decode.zero), st')
   /\ Root.parsePostRequestBody Unmarshal (snd (ReadBody st))
      = (fst (Unmarshal [] decode.zero), snd (Unmarshal [] decode.zero), st'))
  /\ (forall e, http.failure (http.Body (req st)) = Some e ->
      Root.parsePostRequestBody Unmarshal st = (decode.zero, Some e, st')).
Proof.
  intros rest st'. subst rest st'.
  unfold Root.parsePostRequestBody, ReadBody, http.ReadFrom, drained, http.withBody.
  simpl. split.
  - intros Hread. rewrite Hread. simpl. split.
    + destruct (Unmarshal (http.pending (http.Body (req st))) decode.zero); reflexivity.
    + destruct (Unmarshal [] decode.zero); reflexivity.
  - intros e Hread. rewrite Hread. reflexivity.
Qed.
End PatternRuns.

Lemma Root_response_shape_witness :
  let rq := Sample.get {[ "hub.mode" := ["subscribe"];
                          "hub.verify_token" := ["t0ken"];
                          "hub.challenge" := ["xyz"] ]} in
  let st := Root.rootHandlerFunc Sample.Unmarshal
              (Root.NewServer "s3cret" "access" "t0ken") (arrive rq 0) in
  http.written (resp st) <> []
  /\ http.status (resp st) = 200
  /\ http.written (resp st) = bytes_of_string "xyz".
Proof.
  intros rq st.
  assert (http.written (resp st) <> []) as Hbody by (vm_compute; discriminate).
  destruct (Root_response_shape Sample.Unmarshal
              (Root.NewServer "s3cret" "access" "t0ken") rq 0)
    as (_ & _ & _ & Hshape).
  destruct (Hshape Hbody) as (_ & Hstatus & Hchallenge).
  split; [exact Hbody|]. split; [exact Hstatus|exact Hchallenge].
Defined.

Lemma Root_never_dispatches_witness :
  let ws := Root.HandleObjectFunc (Root.NewServer "s3cret" "access" "t0ken")
              "page" Sample.accept in
  let st := Root.rootHandlerFunc Sample.Unmarshal ws (arrive Sample.signedPost 0) in
  invoked st = [] /\ host st = 0 /\ http.status (resp st) <> 200.
Proof.
  intros ws st.
  destruct (Root_never_dispatches Sample.Unmarshal ws Sample.signedPost 0
              Sample_Unmarshal_rejects_empty) as (Hnone & Hhost & Hstatus).
  split; [exact Hnone|]. split; [exact Hhost|]. apply Hstatus. reflexivity.
Defined.

Lemma Patterns_invoked_only_verified_witness :
  let wp := Patterns.HandleObjectFunc (Patterns.NewServer "s3cret" "access" "t0ken")
              "/events" "page" Sample.accept in
  let rb := {| decode.object := "page"; decode.Entry := [] |} in
  In rb (invoked (Patterns.getObjectHandlerFunc Sample.Unmarshal wp "/events"
                    (arrive Sample.signedPost 0)))
  /\ verifySignature (http.Get (http.Header Sample.signedPost) "X-Hub-Signature")
       "s3cret" Sample.body = None
  /\ Sample.Unmarshal Sample.body decode.zero = (rb, None).
Proof.
  intros wp rb.
  assert (In rb (invoked (Patterns.getObjectHandlerFunc Sample.Unmarshal wp "/events"
                            (arrive Sample.signedPost 0)))) as Hin
    by (vm_compute; left; reflexivity).
  destruct (Patterns_invoked_only_verified Sample.Unmarshal wp "/events"
              Sample.signedPost 0 rb Hin) as (_ & _ & Hsig & Hdec & _).
  split; [exact Hin|]. split; [exact Hsig|exact Hdec].
Defined.

Lemma parsePostRequestBody_reads_what_is_left_witness :
  let st := arrive (World := Sample.World) Sample.signedPost 0 in
  snd (fst (Root.parsePostRequestBody Sample.Unmarshal st)) = None
  /\ snd (fst (Root.parsePostRequestBody Sample.Unmarshal (snd (ReadBody st)))) <> None.
Proof.
  intros st.
  destruct (parsePostRequestBody_reads_what_is_left Sample.Unmarshal st)
    as [Hok _].
  destruct (Hok eq_refl) as [Hfirst Hsecond].
  rewrite Hfirst, Hsecond. split.
  - vm_compute. reflexivity.
  - vm_compute. discriminate.
Defined.

Lemma Patterns_unregistered_accepted_witness :
  Patterns.getObjectHandlerFunc Sample.Unmarshal
    (Patterns.HandleObjectFunc (Patterns.NewServer "s3cret" "access" "t0ken")
       "/events" "group" Sample.accept)
    "/events" (arrive Sample.signedPost 0)
  = {| resp := {| http.wroteHeader := true; http.status := 200; http.written := [] |};
       req := drained Sample.signedPost; host := 0; invoked := [] |}.
Proof.
  apply (Patterns_unregistered_accepted Sample.Unmarshal
           (Patterns.HandleObjectFunc (Patterns.NewServer "s3cret" "access" "t0ken")
              "/events" "group" Sample.accept)
           "/events" Sample.signedPost 0
           {| decode.object := "page"; decode.Entry := [] |}).
  - reflexivity.
  - reflexivity.
  - vm_compute. reflexivity.
  - vm_compute. reflexivity.
  - vm_compute. reflexivity.
Defined.

Lemma Patterns_override_dispatched_witness :
  Patterns.getObjectHandlerFunc Sample.Unmarshal
    (Patterns.HandleObjectFunc
       (Patterns.HandleObjectFunc (Patterns.NewServer "s3cret" "access" "t0ken")
          "/events" "page" Sample.accept)
       "/events" "page" Sample.reject)
    "/events" (arrive Sample.signedPost 0)
  = {| resp := {| http.wroteHeader := true; http.status := 400; http.written := [] |};
       req := drained Sample.signedPost; host := 1;
       invoked := [{| decode.object := "page"; decode.Entry := [] |}] |}.
Proof.
  destruct (Patterns_override_dispatched Sample.Unmarshal
              (Patterns.NewServer "s3cret" "access" "t0ken") "/events" "page"
              Sample.accept Sample.reject Sample.signedPost 0
              {| decode.object := "page"; decode.Entry := [] |})
    as (_ & _ & Hrun).
  - reflexivity.
  - reflexivity.
  - vm_compute. reflexivity.
  - vm_compute. reflexivity.
  - reflexivity.
  - exact Hrun.
Defined.

(** ** The registry over any number of registrations *)
Section Registrations.
Context {World : Type} (Unmarshal : Decoder).

Lemma Root_lookup_register (ws : Root.Server) (o' o : decode.Object)
    (h : Callback World) :
  Root_lookup (Root.HandleObjectFunc ws o' h) o
  = if decide (o = o') then Some h else Root_lookup ws o.
Proof.
  unfold Root_lookup. simpl.
  destruct (decide (o = o')) as [->|Hne]; [apply lookup_insert_eq|].
  rewrite lookup_insert_ne by congruence.
  destruct (Root.objectHandlers ws); [reflexivity|apply lookup_empty].
Qed.

Lemma Patterns_lookup_register (ws : Patterns.Server) (p' p : string)
    (o' o : decode.Object) (h : Callback World) :
  Patterns_lookup (Patterns.HandleObjectFunc ws p' o' h) p o
  = if decide ((p, o) = (p', o')) then Some h else Patterns_lookup ws p o.
Proof.
  unfold Patterns_lookup. simpl.
  destruct (decide (p = p')) as [->|Hp].
  - rewrite lookup_insert_eq. simpl.
    destruct (decide (o = o')) as [->|Ho].
    + rewrite lookup_insert_eq.
      destruct (decide ((p', o') = (p', o'))); [reflexivity|contradiction].
    + rewrite lookup_insert_ne by congruence.
      destruct (decide ((p', o) = (p', o'))) as [Heq|_]; [congruence|].
      destruct (Patterns.objectHandlers ws) as [outer|]; simpl.
      * destruct (outer !! p') as [[inner|]|]; simpl;
          first [reflexivity | apply lookup_empty].
      * rewrite lookup_empty. apply lookup_empty.
  - rewrite lookup_insert_ne by congruence.
    destruct (decide ((p, o) = (p', o'))) as [Heq|_]; [congruence|].
    destruct (Patterns.objectHandlers ws) as [outer|]; simpl; [reflexivity|].
    now rewrite lookup_empty.
Qed.

(** X18: after any number of registrations the callback found for an
    object (under a pattern) is the one of the last registration made for
    it, and when none was made what was there before.  On a new server
    nothing is there, so the lookup is the last registration or nothing.
    Both variants. *)
Theorem lookup_after_registrations
    (rootRegs : list (decode.Object * Callback World))
    (patRegs : list (string * decode.Object * Callback World))
    (ws : Root.Server) (wp : Patterns.Server)
    (secret accessToken verificationToken pattern : string) (o : decode.Object) :
  Root_lookup (Root_registerAll rootRegs ws) o
  = match lastFor o rootRegs with Some h => Some h | None => Root_lookup ws o end
  /\ Patterns_lookup (Patterns_registerAll patRegs wp) pattern o
     = match lastFor (pattern, o) patRegs with
       | Some h => Some h
       | None => Patterns_lookup wp pattern o
       end
  /\ Root_lookup
       (Root_registerAll rootRegs (Root.NewServer secret accessToken verificationToken)) o
     = lastFor o rootRegs
  /\ Patterns_lookup
       (Patterns_registerAll patRegs
          (Patterns.NewServer secret accessToken verificationToken)) pattern o
     = lastFor (pattern, o) patRegs.
Proof.
  assert (forall (regs : list (decode.Object * Callback World)) (ws0 : Root.Server),
            Root_lookup (Root_registerAll regs ws0) o
            = match lastFor o regs with Some h => Some h | None => Root_lookup ws0 o end)
    as Hroot.
  { unfold Root_registerAll. induction regs as [|[o' h] rest IH]; intros ws0;
      [reflexivity|].
    cbn [fold_left lastFor fst snd]. rewrite IH, Root_lookup_register.
    destruct (lastFor o rest); [reflexivity|].
    destruct (decide (o = o')); reflexivity. }
  assert (forall (regs : list (string * decode.Object * Callback World))
                 (wp0 : Patterns.Server),
            Patterns_lookup (Patterns_registerAll regs wp0) pattern o
            = match lastFor (pattern, o) regs with
              | Some h => Some h
              | None => Patterns_lookup wp0 pattern o
              end) as Hpat.
  { unfold Patterns_registerAll. induction regs as [|[[p' o'] h] rest IH]; intros wp0;
      [reflexivity|].
    cbn [fold_left lastFor fst snd]. rewrite IH, Patterns_lookup_register.
    destruct (lastFor (pattern, o) rest); [reflexivity|].
    destruct (decide ((pattern, o) = (p', o'))); reflexivity. }
  split; [apply Hroot|]. split; [apply Hpat|]. split.
  - rewrite Hroot. destruct (lastFor o rootRegs); reflexivity.
  - rewrite Hpat. destruct (lastFor (pattern, o) patRegs); reflexivity.
Qed.

Lemma Patterns_index_register (ws : Patterns.Server) (p' p : string)
    (o : decode.Object) (h : Callback World) :
  p <> p' ->
  index (Patterns.objectHandlers (Patterns.HandleObjectFunc ws p' o h)) p
  = index (Patterns.objectHandlers ws) p.
Proof.
  intros Hne. simpl. rewrite lookup_insert_ne by congruence.
  destruct (Patterns.objectHandlers ws); [reflexivity|apply lookup_empty].
Qed.

(** X19: a registration touches nothing but its own entry.  It leaves the
    handshake of either server as it was, and in the pattern-keyed variant
    the handling of every request to another pattern: a callback registered
    under one pattern never runs for a request to another. *)
Theorem registration_is_local
    (ws : Root.Server) (wp : Patterns.Server) (p' p : string)
    (o : decode.Object) (h : Callback World) (st : Exchange World) :
  (http.Method (req st) <> http.MethodPost ->
   Root.rootHandlerFunc Unmarshal (Root.HandleObjectFunc ws o h) st
   = Root.rootHandlerFunc Unmarshal ws st)
  /\ Patterns.webhookHandlerFunc (Patterns.HandleObjectFunc wp p' o h) st
     = Patterns.webhookHandlerFunc wp st
  /\ (p <> p' ->
      Patterns.getObjectHandlerFunc Unmarshal (Patterns.HandleObjectFunc wp p' o h) p st
      = Patterns.getObjectHandlerFunc Unmarshal wp p st).
Proof.
  split; [|split].
  - intros Hpost. unfold Root.rootHandlerFunc.
    destruct (decide (http.Method (req st) = http.MethodGet)); [reflexivity|].
    destruct (decide (http.Method (req st) = http.MethodPost)); [contradiction|].
    reflexivity.
  - reflexivity.
  - intros Hne. unfold Patterns.getObjectHandlerFunc.
    rewrite Patterns_index_register by exact Hne. reflexivity.
Qed.
End Registrations.

Section RegisteredPatterns.
Context {World : Type}.

Lemma Patterns_index_register_eq (ws : Patterns.Server (World := World)) (p : string)
    (o : decode.Object) (h : Callback World) :
  exists inner,
    index (Patterns.objectHandlers (Patterns.HandleObjectFunc ws p o h)) p
    = Some (Some (<[o := h]> inner)).
Proof.
  simpl. rewrite lookup_insert_eq. eauto.
Qed.

(** X20: after any number of registrations on a new server of the
    pattern-keyed variant, [objectHandlers] has an entry for exactly the
    patterns that were registered for, and every entry is a non-nil map
    holding at least one callback.  These are the patterns the loop of
    [ListenAndServe] ranges over. *)
Theorem Patterns_registered_patterns
    (regs : list (string * decode.Object * Callback World))
    (secret accessToken verificationToken p : string) :
  let wp := Patterns_registerAll regs
              (Patterns.NewServer secret accessToken verificationToken) in
  (index (Patterns.objectHandlers wp) p <> None
   <-> exists o h, In (p, o, h) regs)
  /\ (forall m, index (Patterns.objectHandlers wp) p = Some m ->
      exists inner, m = Some inner /\ inner <> ∅).
Proof.
  assert (forall rs (ws0 : Patterns.Server (World := World)),
            (index (Patterns.objectHandlers (Patterns_registerAll rs ws0)) p <> None
             <-> (exists o h, In (p, o, h) rs)
                 \/ index (Patterns.objectHandlers ws0) p <> None)
            /\ ((forall m, index (Patterns.objectHandlers ws0) p = Some m ->
                 exists inner, m = Some inner /\ inner <> ∅) ->
                forall m, index (Patterns.objectHandlers (Patterns_registerAll rs ws0)) p
                          = Some m ->
                          exists inner, m = Some inner /\ inner <> ∅)) as Hgen.
  { unfold Patterns_registerAll.
    induction rs as [|[[p' o'] h'] rest IH]; intros ws0.
    - simpl. split; [|auto]. split; [auto|]. intros [(o & h & [])|H]; exact H.
    - cbn [fold_left fst snd].
      destruct (IH (Patterns.HandleObjectFunc ws0 p' o' h')) as [IHdom IHinv].
      split.
      + rewrite IHdom. destruct (decide (p = p')) as [->|Hne].
        * destruct (Patterns_index_register_eq ws0 p' o' h') as [inner ->].
          split; [|intros _; right; discriminate].
          intros _. left. exists o', h'. left. reflexivity.
        * rewrite Patterns_index_register by exact Hne.
          split.
          -- intros [(o & h & Hin)|H]; [|now right].
             left. exists o, h. now right.
          -- intros [(o & h & [Heq|Hin])|H]; [congruence| |now right].
             left. exists o, h. exact Hin.
      + intros Hinv. apply IHinv. intros m.
        destruct (decide (p = p')) as [->|Hne].
        * destruct (Patterns_index_register_eq ws0 p' o' h') as [inner ->].
          intros [= <-]. exists (<[o' := h']> inner).
          split; [reflexivity|apply insert_non_empty].
        * rewrite Patterns_index_register by exact Hne. apply Hinv. }
  intros wp. subst wp.
  destruct (Hgen regs (Patterns.NewServer secret accessToken verificationToken))
    as [Hdom Hinv].
  split.
  - rewrite Hdom. simpl. split; [intros [H|H]; [exact H|contradiction]|now left].
  - apply Hinv. simpl. discriminate.
Qed.
End RegisteredPatterns.

Lemma registration_is_local_witness :
  let wp := Patterns.NewServer (World := Sample.World) "s3cret" "access" "t0ken" in
  Patterns.getObjectHandlerFunc Sample.Unmarshal
    (Patterns.HandleObjectFunc wp "/other" "page" Sample.accept)
    "/events" (arrive Sample.signedPost 0)
  = Patterns.getObjectHandlerFunc Sample.Unmarshal wp "/events"
      (arrive Sample.signedPost 0).
Proof.
  intros wp.
  destruct (registration_is_local Sample.Unmarshal
              (Root.NewServer "s3cret" "access" "t0ken") wp "/other" "/events"
              "page" Sample.accept (arrive Sample.signedPost 0))
    as (_ & _ & Hpat).
  apply Hpat. discriminate.
Defined.

(** ** What the configuration is used for *)
Section Configuration.
Context {World : Type} (Unmarshal : Decoder).

(** X23: the access token is never read, the secret plays no part in the
    handshake and the verification token none in the handling of events:
    two servers that differ only in these answer alike.  Both variants. *)
Theorem configuration_use
    (secret secret' accessToken accessToken' token token' : string)
    (roots : option (gmap decode.Object (Callback World)))
    (pats pats' : option (gmap string (option (gmap decode.Object (Callback World)))))
    (pattern : string) (st : Exchange World) :
  (http.Method (req st) = http.MethodGet ->
   Root.rootHandlerFunc Unmarshal (Root.mkServer secret accessToken token roots) st
   = Root.rootHandlerFunc Unmarshal (Root.mkServer secret' accessToken' token roots) st)
  /\ (http.Method (req st) = http.MethodPost ->
      Root.rootHandlerFunc Unmarshal (Root.mkServer secret accessToken token roots) st
      = Root.rootHandlerFunc Unmarshal (Root.mkServer secret accessToken' token' roots) st)
  /\ Patterns.webhookHandlerFunc (Patterns.mkServer secret accessToken token pats) st
     = Patterns.webhookHandlerFunc (Patterns.mkServer secret' accessToken' token pats') st
  /\ Patterns.getObjectHandlerFunc Unmarshal
       (Patterns.mkServer secret accessToken token pats) pattern st
     = Patterns.getObjectHandlerFunc Unmarshal
         (Patterns.mkServer secret accessToken' token' pats) pattern st.
Proof.
  split; [|split; [|split]].
  - intros Hget. unfold Root.rootHandlerFunc.
    destruct (decide (http.Method (req st) = http.MethodGet)); [reflexivity|contradiction].
  - intros Hpost. unfold Root.rootHandlerFunc.
    destruct (decide (http.Method (req st) = http.MethodGet)) as [Hget|_];
      [rewrite Hpost in Hget; discriminate Hget|].
    reflexivity.
  - reflexivity.
  - reflexivity.
Qed.
End Configuration.

Lemma configuration_use_witness :
  Root.rootHandlerFunc Sample.Unmarshal
    (Root.mkServer "s3cret" "access" "t0ken" None) (arrive Sample.signedPost 0)
  = Root.rootHandlerFunc Sample.Unmarshal
      (Root.mkServer "s3cret" "another" "changed" None) (arrive Sample.signedPost 0).
Proof.
  destruct (configuration_use Sample.Unmarshal "s3cret" "s3cret" "access" "another"
              "t0ken" "changed" None None None "/events"
              (arrive (World := Sample.World) Sample.signedPost 0))
    as (_ & Hpost & _ & _).
  apply Hpost. reflexivity.
Defined.

Lemma Patterns_registered_patterns_witness :
  let wp := Patterns_registerAll
              [("/events", "page", Sample.accept); ("/events", "group", Sample.reject)]
              (Patterns.NewServer "s3cret" "access" "t0ken") in
  index (Patterns.objectHandlers wp) "/events" <> None
  /\ ~ (index (Patterns.objectHandlers wp) "/other" <> None).
Proof.
  intros wp. split.
  - apply (Patterns_registered_patterns
             [("/events", "page", Sample.accept); ("/events", "group", Sample.reject)]
             "s3cret" "access" "t0ken" "/events").
    exists "page", Sample.accept. left. reflexivity.
  - intros Hsome.
    apply (Patterns_registered_patterns
             [("/events", "page", Sample.accept); ("/events", "group", Sample.reject)]
             "s3cret" "access" "t0ken" "/other") in Hsome.
    destruct Hsome as (o & h & [Heq|[Heq|[]]]); discriminate Heq.
Defined.
